(** * webgpu-chat: the worker-side orchestration (worker.ts)

    A shallow embedding of the web worker that drives text generation:
    the interruptable stopping criteria, the singleton pipeline cache,
    the [generate] and [load] async functions, and the message listener.

    JavaScript runs the worker on one thread: a message handler runs to
    its first [await], and every later segment of an async function runs
    when the promise it waits for settles. The embedding keeps that
    shape: an async function is cut at its [await]s into segments, a
    suspended call is a [task], and the things that happen to the worker
    from outside (a message from the host, a loader reporting progress,
    a promise settling, the decoding loop making a step) are
    [occurrence]s delivered one at a time. *)

From Stdlib Require Import ZArith Floats Uint63 Ascii.
From stdpp Require Import base list strings.

Open Scope string_scope.

(** ** Values that cross the worker boundary *)

(** [Config] of worker.ts. The three fields are string literal types in
    TypeScript and plain strings at run time. *)
Record Config := {
  modelName : string;
  dtype : string;
  device : string
}.

(** A chat turn ([Message] of transformers.js). *)
Record Message := { role : string; content : string }.

Definition token := Z.

(** What the tokenizer hands to the model: one row of ids per sequence. *)
Record BatchEncoding := {
  enc_input_ids : list (list token);
  enc_attention_mask : list (list token)
}.

(** JavaScript values, as far as the worker looks at them: the [type]
    field of a message is compared with string literals, and the result
    of [apply_chat_template] is tested with [typeof]. *)
Inductive jsval :=
| JSUndefined
| JSNull
| JSBoolean (b : bool)
| JSNumber (n : float)
| JSString (s : string)
| JSObject (o : BatchEncoding).

(** The [typeof] operator. [typeof null] is ["object"]. *)
Definition js_typeof (v : jsval) : string :=
  match v with
  | JSUndefined => "undefined"
  | JSNull => "object"
  | JSBoolean _ => "boolean"
  | JSNumber _ => "number"
  | JSString _ => "string"
  | JSObject _ => "object"
  end.

(** Strict equality [v === "lit"] against a string literal, the test a
    [switch] makes for each [case]. *)
Definition strict_eq_string (v : jsval) (lit : string) : bool :=
  match v with
  | JSString s => bool_decide (s = lit)
  | _ => false
  end.

(** Object spread [{...inputs}]: the own fields of an object, nothing
    for [null] and for primitives. *)
Definition spread (v : jsval) : option BatchEncoding :=
  match v with
  | JSObject o => Some o
  | _ => None
  end.

(** [e.data] of a message event, destructured as [{ type, data, config }]. *)
Record MessageData := {
  type : jsval;
  data : list Message;
  config : Config
}.

(** A progress report of the transformers.js loader
    ([initiate], [progress], [done], ...). *)
Record ProgressInfo := {
  pi_status : string;
  pi_file : string;
  pi_progress : Z;
  pi_total : Z
}.

(** Everything the worker hands to [self.postMessage]. *)
Inductive event :=
| loading (data : string)            (* { status: "loading", data } *)
| republished (x : ProgressInfo)     (* self.postMessage(x), x from the loader *)
| ready                              (* { status: "ready" } *)
| start                              (* { status: "start" } *)
| update (output : string) (tps : option float) (numTokens : Z)
| complete (output : list string)    (* { status: "complete", output } *)
| error (error : string).            (* { status: "error", error } *)

Definition is_error (e : event) : bool :=
  match e with error _ => true | _ => false end.
Definition is_complete (e : event) : bool :=
  match e with complete _ => true | _ => false end.
Definition is_update (e : event) : bool :=
  match e with update _ _ _ => true | _ => false end.
Definition is_start (e : event) : bool :=
  match e with start => true | _ => false end.

(** ** CallbackTextStreamer *)

(** The streamer built by [new CallbackTextStreamer(tokenizer, cb)]: the
    constructor fixes both options; [cb] is the closure of [generate],
    represented by the closure state kept in the task. *)
Record CallbackTextStreamer := {
  streamer_tokenizer : nat;
  skip_prompt : bool;
  skip_special_tokens : bool
}.

Definition new_CallbackTextStreamer (tokenizer : nat) : CallbackTextStreamer :=
  {| streamer_tokenizer := tokenizer;
     skip_prompt := true;
     skip_special_tokens := true |}.

(** ** InterruptableStoppingCriteria

    The class is declared [extends StoppingCriteriaList]: an object of
    it is a list of criteria of the library, with a field and three
    methods of its own. *)

(** A criterion of the library ([StoppingCriteria]): called on the
    sequences of the batch, it says of each whether it is done. *)
Definition StoppingCriteria := list (list token) -> list bool.

(** The field of the class itself. *)
Record InterruptableStoppingCriteria := { interrupted : bool }.

(** [this.criteria], the field of the base class: [super()] sets it to
    the empty array, and neither the class nor the worker ever pushes a
    criterion to it. *)
Definition criteria (_ : InterruptableStoppingCriteria) : list StoppingCriteria := [].

(** [constructor()] *)
Definition new_InterruptableStoppingCriteria : InterruptableStoppingCriteria :=
  {| interrupted := false |}.

(** [interrupt()] *)
Definition interrupt (_ : InterruptableStoppingCriteria) : InterruptableStoppingCriteria :=
  {| interrupted := true |}.

(** [reset()] *)
Definition reset (_ : InterruptableStoppingCriteria) : InterruptableStoppingCriteria :=
  {| interrupted := false |}.

(** [_call(input_ids, _)]: [new Array(input_ids.length).fill(this.interrupted)].
    It overrides the [_call] of the base class. *)
Definition _call (sc : InterruptableStoppingCriteria) (input_ids : list (list token))
  : list bool :=
  replicate (length input_ids) (interrupted sc).

(** What a list of criteria answers ([StoppingCriteriaList._call] of the
    library): a sequence is done when one of the criteria says so. *)
Definition StoppingCriteriaList_call (cs : list StoppingCriteria)
    (input_ids : list (list token)) : list bool :=
  foldl (fun is_done c => zip_with orb is_done (c input_ids))
    (replicate (length input_ids) false) cs.

(** ** The loader and the singleton pipeline *)

(** The progress callback that [load] passes: [(x) => self.postMessage(x)]. *)
Inductive ProgressCallback := post_progress.

(** The two calls into the transformers.js loader, with the options the
    worker passes. *)
Inductive pretrained_call :=
| AutoTokenizer_from_pretrained
    (model_id : string) (legacy : bool)
    (progress_callback : option ProgressCallback)
| AutoModelForCausalLM_from_pretrained
    (model_id : string) (dtype device : string) (use_external_data_format : bool)
    (progress_callback : option ProgressCallback).

Definition call_progress_callback (c : pretrained_call) : option ProgressCallback :=
  match c with
  | AutoTokenizer_from_pretrained _ _ cb => cb
  | AutoModelForCausalLM_from_pretrained _ _ _ _ cb => cb
  end.

Definition call_model_id (c : pretrained_call) : string :=
  match c with
  | AutoTokenizer_from_pretrained m _ _ => m
  | AutoModelForCausalLM_from_pretrained m _ _ _ _ => m
  end.

(** State of a promise. *)
Inductive settled :=
| Pending
| Fulfilled
| Rejected (reason : string).

(** Static fields of [TextGenerationPipeline]. A promise is named by the
    position of its [from_pretrained] call in the loader's log; an
    uninitialised static field is [None] (undefined). *)
Record TextGenerationPipeline := {
  model_id : option string;
  tokenizer : option nat;
  model : option nat
}.

(** ** Calls into the decoding engine *)

(** The argument of [model.generate(...)]. *)
Record generate_call := {
  gc_model : nat;
  gc_inputs : option BatchEncoding;       (* ...inputs *)
  gc_max_new_tokens : Z;
  gc_streamer : option CallbackTextStreamer;
  gc_stopping_criteria : bool             (* the shared stopping_criteria is passed *)
}.

(** ** Suspended async calls *)

(** The closure variables of one [generate] call that [cb] updates. *)
Record closure := {
  startTime : option float;
  numTokens : Z
}.

Inductive task :=
| load_await_getInstance (tok mdl : nat)
    (* load, at [await TextGenerationPipeline.getInstance(config, ...)] *)
| load_await_generate (call : generate_call)
    (* load, at [await model.generate({...inputs, max_new_tokens: 1})] *)
| generate_await_getInstance (messages : list Message) (tok mdl : nat)
    (* generate, at [await TextGenerationPipeline.getInstance(config)] *)
| generate_await_generate (call : generate_call) (tok : nat) (c : closure)
    (* generate, at [await model.generate({...})] *)
| returned
    (* the async function ran to its end: its promise is fulfilled *)
| rejected (reason : string).
    (* the async function threw: its promise is rejected *)

(** ** The worker *)

Record world := {
  stopping_criteria : InterruptableStoppingCriteria;
  pipeline : TextGenerationPipeline;
  loads : list (pretrained_call * settled);   (* loader log, one entry per call *)
  tasks : list task;                          (* async calls made so far *)
  clock_reads : nat;                          (* calls of performance.now() so far *)
  outbox : list event;                        (* self.postMessage, oldest first *)
  unhandled : list string                     (* rejections no one handles *)
}.

(** The worker right after the module is evaluated. *)
Definition fresh : world :=
  {| stopping_criteria := new_InterruptableStoppingCriteria;
     pipeline := {| model_id := None; tokenizer := None; model := None |};
     loads := [];
     tasks := [];
     clock_reads := 0;
     outbox := [];
     unhandled := [] |}.

Definition set_stopping_criteria (sc : InterruptableStoppingCriteria) (w : world) : world :=
  {| stopping_criteria := sc; pipeline := pipeline w; loads := loads w;
     tasks := tasks w; clock_reads := clock_reads w; outbox := outbox w;
     unhandled := unhandled w |}.

Definition set_pipeline (p : TextGenerationPipeline) (w : world) : world :=
  {| stopping_criteria := stopping_criteria w; pipeline := p; loads := loads w;
     tasks := tasks w; clock_reads := clock_reads w; outbox := outbox w;
     unhandled := unhandled w |}.

Definition set_loads (l : list (pretrained_call * settled)) (w : world) : world :=
  {| stopping_criteria := stopping_criteria w; pipeline := pipeline w; loads := l;
     tasks := tasks w; clock_reads := clock_reads w; outbox := outbox w;
     unhandled := unhandled w |}.

Definition set_tasks (t : list task) (w : world) : world :=
  {| stopping_criteria := stopping_criteria w; pipeline := pipeline w; loads := loads w;
     tasks := t; clock_reads := clock_reads w; outbox := outbox w;
     unhandled := unhandled w |}.

Definition set_clock_reads (n : nat) (w : world) : world :=
  {| stopping_criteria := stopping_criteria w; pipeline := pipeline w; loads := loads w;
     tasks := tasks w; clock_reads := n; outbox := outbox w;
     unhandled := unhandled w |}.

(** [self.postMessage(e)] *)
Definition postMessage (e : event) (w : world) : world :=
  {| stopping_criteria := stopping_criteria w; pipeline := pipeline w; loads := loads w;
     tasks := tasks w; clock_reads := clock_reads w; outbox := outbox w ++ [e];
     unhandled := unhandled w |}.

(** A rejected promise without a handler. *)
Definition unhandled_rejection (reason : string) (w : world) : world :=
  {| stopping_criteria := stopping_criteria w; pipeline := pipeline w; loads := loads w;
     tasks := tasks w; clock_reads := clock_reads w; outbox := outbox w;
     unhandled := unhandled w ++ [reason] |}.

Definition set_task (i : nat) (t : task) (w : world) : world :=
  set_tasks (<[i := t]> (tasks w)) w.

(** An async call made without [await]: its promise is dropped, the
    call lives on as a task. *)
Definition spawn (r : task * world) : world :=
  set_tasks (tasks r.2 ++ [r.1]) r.2.

(** ** External collaborators

    The timer, the tokenizer and the engine are not part of the worker.
    The tokenizer's methods are indexed by the loader call that produced
    the tokenizer. *)
Record External := {
  performance_now : nat -> float;
    (* the k-th reading of performance.now() *)
  apply_chat_template : nat -> list Message -> jsval;
    (* tokenizer.apply_chat_template(messages,
         { add_generation_prompt: true, return_dict: true }) *)
  tokenizer_call : nat -> string -> BatchEncoding;
    (* tokenizer(text) *)
  decode : nat -> list token -> bool -> string;
    (* tokenizer.decode(ids, { skip_special_tokens }) *)
  batch_decode : nat -> list (list token) -> bool -> list string
    (* tokenizer.batch_decode(outputs, { skip_special_tokens }) *)
}.

(** The token count is a JavaScript number that only ever holds a small
    natural number (one increment per fragment, generation capped at 512
    new tokens), where doubles are exact; it is kept as an integer and
    converted where it enters floating-point arithmetic. *)
Definition number_of_count (n : Z) : float :=
  PrimFloat.of_uint63 (Uint63.of_Z n).

Section Worker.

Variable E : External.

(** [performance.now()] *)
Definition now (w : world) : float * world :=
  (performance_now E (clock_reads w), set_clock_reads (S (clock_reads w)) w).

(** [cb] of [generate]:
<<
  const cb = (output: string) => {
    startTime ??= performance.now();
    let tps;
    if (numTokens++ > 0) {
      tps = numTokens / (performance.now() - startTime) * 1000;
    }
    self.postMessage({ status: "update", output, tps, numTokens });
  };
>> *)
Definition cb (output : string) (c : closure) (w : world) : closure * world :=
  let '(st, w) :=
    match startTime c with
    | Some t => (t, w)
    | None => now w
    end in
  let old := numTokens c in
  let n := (old + 1)%Z in
  let '(tps, w) :=
    if (0 <? old)%Z
    then let '(t, w) := now w in
         (Some (number_of_count n / (t - st) * 1000)%float, w)
    else (None, w) in
  ({| startTime := Some st; numTokens := n |},
   postMessage (update output tps n) w).

(** [on_finalized_text(text) { this.cb(text); }] *)
Definition on_finalized_text (_ : CallbackTextStreamer) (text : string)
    (c : closure) (w : world) : closure * world :=
  cb text c w.

(** The loader is entered: a new pending promise, named by its position
    in the log. *)
Definition from_pretrained (c : pretrained_call) (w : world) : nat * world :=
  (length (loads w), set_loads (loads w ++ [(c, Pending)]) w).

(** [TextGenerationPipeline.getInstance(config, progress_callback)], up
    to the two promises it combines with [Promise.all]. *)
Definition getInstance (config : Config) (progress_callback : option ProgressCallback)
    (w : world) : (nat * nat) * world :=
  (* this.model_id = config.modelName; *)
  let w := set_pipeline {| model_id := Some (modelName config);
                           tokenizer := tokenizer (pipeline w);
                           model := model (pipeline w) |} w in
  let this_model_id := modelName config in
  (* this.tokenizer ??= AutoTokenizer.from_pretrained(...) *)
  let '(tok, w) :=
    match tokenizer (pipeline w) with
    | Some h => (h, w)
    | None =>
        let '(h, w) :=
          from_pretrained
            (AutoTokenizer_from_pretrained this_model_id true progress_callback) w in
        (h, set_pipeline {| model_id := model_id (pipeline w);
                            tokenizer := Some h;
                            model := model (pipeline w) |} w)
    end in
  (* this.model ??= AutoModelForCausalLM.from_pretrained(...) *)
  let '(mdl, w) :=
    match model (pipeline w) with
    | Some h => (h, w)
    | None =>
        let '(h, w) :=
          from_pretrained
            (AutoModelForCausalLM_from_pretrained
               this_model_id (dtype config) (device config) true progress_callback) w in
        (h, set_pipeline {| model_id := model_id (pipeline w);
                            tokenizer := tokenizer (pipeline w);
                            model := Some h |} w)
    end in
  ((tok, mdl), w).

Definition promise_state (w : world) (h : nat) : settled :=
  match loads w !! h with
  | Some (_, s) => s
  | None => Pending
  end.

(** [Promise.all([this.tokenizer, this.model])]: fulfilled when both
    are, rejected with the reason of the first rejection. *)
Definition Promise_all (w : world) (tok mdl : nat) : settled :=
  match promise_state w tok, promise_state w mdl with
  | Rejected r, _ => Rejected r
  | _, Rejected r => Rejected r
  | Fulfilled, Fulfilled => Fulfilled
  | _, _ => Pending
  end.

(** *** generate *)

(** [generate], from the line after [await getInstance] to
    [await model.generate(...)]. *)
Definition generate_after_getInstance (messages : list Message) (tok mdl : nat)
    (w : world) : task * world :=
  let inputs := apply_chat_template E tok messages in
  (* if (typeof inputs !== "object") return; *)
  if negb (bool_decide (js_typeof inputs = "object")) then (returned, w)
  else
    let c := {| startTime := None; numTokens := 0 |} in
    let streamer := new_CallbackTextStreamer tok in
    (* self.postMessage({ status: "start" }); *)
    let w := postMessage start w in
    (generate_await_generate
       {| gc_model := mdl;
          gc_inputs := spread inputs;
          gc_max_new_tokens := 512;
          gc_streamer := Some streamer;
          gc_stopping_criteria := true |} tok c,
     w).

(** [generate] at [await getInstance]: go on when the promise is
    settled, stay suspended otherwise. A rejection ends the async
    function with a rejected promise. *)
Definition generate_at_getInstance (messages : list Message) (tok mdl : nat)
    (w : world) : task * world :=
  match Promise_all w tok mdl with
  | Pending => (generate_await_getInstance messages tok mdl, w)
  | Rejected r => (rejected r, unhandled_rejection r w)
  | Fulfilled => generate_after_getInstance messages tok mdl w
  end.

(** [generate(messages, config)] as the listener calls it. *)
Definition generate (messages : list Message) (config : Config) (w : world)
  : task * world :=
  let '((tok, mdl), w) := getInstance config None w in
  generate_at_getInstance messages tok mdl w.

(** [generate], after [model.generate] resolved with [outputs]. *)
Definition generate_after_generate (tok : nat) (outputs : list (list token))
    (w : world) : task * world :=
  let outputText := batch_decode E tok outputs false in
  (returned, postMessage (complete outputText) w).

(** *** load *)

Definition newline : string := String (ascii_of_nat 10) EmptyString.

(** [load], from the line after [await getInstance] to the warm-up
    [await model.generate(...)]. *)
Definition load_after_getInstance (tok mdl : nat) (w : world) : task * world :=
  let w := postMessage (loading "Compiling shaders and warming up model...") w in
  let inputs := tokenizer_call E tok "a" in
  (load_await_generate
     {| gc_model := mdl;
        gc_inputs := Some inputs;
        gc_max_new_tokens := 1;
        gc_streamer := None;
        gc_stopping_criteria := false |},
   w).

Definition load_at_getInstance (tok mdl : nat) (w : world) : task * world :=
  match Promise_all w tok mdl with
  | Pending => (load_await_getInstance tok mdl, w)
  | Rejected r => (rejected r, unhandled_rejection r w)
  | Fulfilled => load_after_getInstance tok mdl w
  end.

(** [load(config)] as the listener calls it. *)
Definition load (config : Config) (w : world) : task * world :=
  let w :=
    postMessage
      (loading ("Loading model..." +:+ newline +:+ modelName config +:+
                " (" +:+ dtype config +:+ ") " +:+ device config)) w in
  let '((tok, mdl), w) := getInstance config (Some post_progress) w in
  load_at_getInstance tok mdl w.

(** [load], after the warm-up [model.generate] resolved. *)
Definition load_after_generate (w : world) : task * world :=
  (returned, postMessage ready w).

(** *** The message listener *)

(** How a block ends. *)
Inductive completion :=
| normal (w : world)
| throw (err : string) (w : world).

(** The [try] block: the [switch] over [type]. [load] and [generate]
    are async functions called without [await]: the call returns a
    promise and cannot throw. *)
Definition try_block (d : MessageData) (w : world) : completion :=
  if strict_eq_string (type d) "load" then
    normal (spawn (load (config d) w))
  else if strict_eq_string (type d) "generate" then
    let w := set_stopping_criteria (reset (stopping_criteria w)) w in
    normal (spawn (generate (data d) (config d) w))
  else if strict_eq_string (type d) "interrupt" then
    normal (set_stopping_criteria (interrupt (stopping_criteria w)) w)
  else if strict_eq_string (type d) "reset" then
    normal (set_stopping_criteria (reset (stopping_criteria w)) w)
  else normal w.

(** The listener: [try { switch ... } catch (error) { postMessage(error) }]. *)
Definition listener (d : MessageData) (w : world) : world :=
  match try_block d w with
  | normal w => w
  | throw err w => postMessage (error err) w
  end.

End Worker.

(** ** What happens to the worker from outside *)

(** One step of the decoding loop of [model.generate]: the ids put to
    the streamer, and every sequence of the batch so far, each with the
    verdict of the engine's own criteria (end of sequence, length
    bound). *)
Record decode_step := {
  ds_tokens : list token;
  ds_rows : list (list token * bool)
}.

Inductive occurrence :=
| Message_event (d : MessageData)
    (* the host posts a message *)
| Loader_progress (h : nat) (x : ProgressInfo)
    (* the loader of call [h] reports progress *)
| Loader_settles (h : nat) (r : option string)
    (* the promise of call [h] is fulfilled (None) or rejected *)
| Warmup_done (i : nat)
    (* the warm-up [model.generate] of task [i] resolves *)
| Engine_rejects (i : nat) (reason : string)
    (* the [model.generate] promise of task [i] is rejected *)
| Decode_step (i : nat) (st : decode_step).
    (* the decoding loop of task [i] makes one step *)

Section Delivery.

Variable E : External.

(** The loader reports progress to the callback its call was given, as
    long as the call is pending (section 4.1: the callback is not
    invoked after resolution). *)
Definition loader_progress (h : nat) (x : ProgressInfo) (w : world) : world :=
  match loads w !! h with
  | Some (c, Pending) =>
      match call_progress_callback c with
      | Some post_progress => postMessage (republished x) w   (* self.postMessage(x) *)
      | None => w
      end
  | _ => w
  end.

(** A promise settles once. *)
Definition settle (h : nat) (r : option string) (w : world) : world :=
  match loads w !! h with
  | Some (c, Pending) =>
      set_loads (<[h := (c, match r with None => Fulfilled | Some e => Rejected e end)]>
                   (loads w)) w
  | _ => w
  end.

(** A task suspended at [await getInstance] on promise [h] is resumed. *)
Definition wake_task (h i : nat) (w : world) : world :=
  match tasks w !! i with
  | Some (load_await_getInstance tok mdl) =>
      if Nat.eqb tok h || Nat.eqb mdl h
      then let r := load_at_getInstance E tok mdl w in set_task i r.1 r.2
      else w
  | Some (generate_await_getInstance messages tok mdl) =>
      if Nat.eqb tok h || Nat.eqb mdl h
      then let r := generate_at_getInstance E messages tok mdl w in set_task i r.1 r.2
      else w
  | _ => w
  end.

(** The reactions of a settled promise run in the order the tasks
    started to wait. *)
Definition wake (h : nat) (w : world) : world :=
  foldl (fun w i => wake_task h i w) w (seq 0 (length (tasks w))).

Definition loader_settles (h : nat) (r : option string) (w : world) : world :=
  match loads w !! h with
  | Some (_, Pending) => wake h (settle h r w)
  | _ => w
  end.

Definition warmup_done (i : nat) (w : world) : world :=
  match tasks w !! i with
  | Some (load_await_generate _) =>
      let r := load_after_generate w in set_task i r.1 r.2
  | _ => w
  end.

(** A rejected [model.generate] ends the awaiting async function with a
    rejection, which nobody handles. *)
Definition engine_rejects (i : nat) (reason : string) (w : world) : world :=
  match tasks w !! i with
  | Some (load_await_generate _)
  | Some (generate_await_generate _ _ _) =>
      set_task i (rejected reason) (unhandled_rejection reason w)
  | _ => w
  end.

(** Modelled from the spec: the decoding loop behind [model.generate]
    and the text streamer's [put], which belong to transformers.js and
    are not in the repository (section 6: the engine calls the fragment
    callback once per emitted unit of text, in generation order, and
    asks the stopping criteria once per step, for every sequence of the
    batch). In one step the loop puts the new ids
    to the streamer, which decodes them with its own options and hands
    the text to [on_finalized_text]; then it asks the stopping criteria
    about every sequence, and leaves the loop when every sequence is
    done by the engine's own criteria or by the criteria it was given.
    What it was given is taken by its class: the engine merges a
    [StoppingCriteriaList] into its own list by the criteria the list
    holds ([criteria.extend(stopping_criteria)] takes [items.criteria]
    of a list), and [stopping_criteria] is such a list, so the loop
    asks the criteria in [this.criteria]; the [_call] of the object
    itself is not among them. When
    the loop is left [model.generate] resolves with the sequences, and
    [generate] goes on behind its [await]. *)
Definition decode_step_of (i : nat) (st : decode_step) (w : world) : world :=
  match tasks w !! i with
  | Some (generate_await_generate call tok c) =>
      let '(c, w) :=
        match gc_streamer call with
        | Some s =>
            on_finalized_text E s
              (decode E (streamer_tokenizer s) (ds_tokens st) (skip_special_tokens s))
              c w
        | None => (c, w)
        end in
      let input_ids := (ds_rows st).*1 in
      let criterion_done :=
        if gc_stopping_criteria call
        then StoppingCriteriaList_call (criteria (stopping_criteria w)) input_ids
        else replicate (length input_ids) false in
      let is_done := zip_with orb (ds_rows st).*2 criterion_done in
      if forallb id is_done
      then let r := generate_after_generate E tok input_ids w in set_task i r.1 r.2
      else set_task i (generate_await_generate call tok c) w
  | _ => w
  end.

Definition deliver (o : occurrence) (w : world) : world :=
  match o with
  | Message_event d => listener E d w
  | Loader_progress h x => loader_progress h x w
  | Loader_settles h r => loader_settles h r w
  | Warmup_done i => warmup_done i w
  | Engine_rejects i reason => engine_rejects i reason w
  | Decode_step i st => decode_step_of i st w
  end.

(** The worker after a sequence of occurrences. *)
Definition run (os : list occurrence) (w : world) : world :=
  foldl (fun w o => deliver o w) w os.

(** Feeding a sequence of fragments through [cb], one call each. *)
Definition feed (fragments : list string) (cw : closure * world) : closure * world :=
  foldl (fun cw f => cb E f cw.1 cw.2) cw fragments.

End Delivery.

(** ** Vocabulary of the statements *)

(** The engine's own criteria hold for every sequence of the batch. *)
Definition engine_done (st : decode_step) : bool :=
  forallb id (ds_rows st).*2.

(** The text a streamer makes of the ids of one step. *)
Definition fragment_of (E : External) (s : CallbackTextStreamer) (st : decode_step)
  : string :=
  decode E (streamer_tokenizer s) (ds_tokens st) (skip_special_tokens s).

(** Tokens per second as the specification words it, for the i-th
    fragment counted from 1, with the timer read [r0] times before the
    first fragment: undefined for the first fragment, afterwards the
    count divided by the milliseconds since the first fragment's
    reading, times 1000. *)
Definition tokensPerSecond (E : External) (r0 i : nat) : option float :=
  match i with
  | 0 | 1 => None
  | _ =>
      Some (number_of_count (Z.of_nat i)
            / (performance_now E (r0 + i - 1) - performance_now E r0) * 1000)%float
  end.

(** The i-th update event (from 1) as the specification words it. *)
Definition UpdateEvent (E : External) (r0 i : nat) (text : string) : event :=
  update text (tokensPerSecond E r0 i) (Z.of_nat i).

(** The update events of a sequence of fragments. *)
Definition UpdateEvents (E : External) (r0 : nat) (fragments : list string)
  : list event :=
  imap (fun k text => UpdateEvent E r0 (S k) text) fragments.

(** The first status event of [load]. *)
Definition loading_model (c : Config) : event :=
  loading ("Loading model..." +:+ newline +:+ modelName c +:+
           " (" +:+ dtype c +:+ ") " +:+ device c).

(** A world with more events posted. *)
Definition posted (es : list event) (w : world) : world :=
  {| stopping_criteria := stopping_criteria w; pipeline := pipeline w; loads := loads w;
     tasks := tasks w; clock_reads := clock_reads w; outbox := outbox w ++ es;
     unhandled := unhandled w |}.

(** A progress report tagged with the artifact it is about: the
    tokenizer ([true]) or the model ([false]). *)
Definition progress_of (tok mdl : nat) (p : bool * ProgressInfo) : occurrence :=
  Loader_progress (if p.1 then tok else mdl) p.2.

(** The second status event of [load]. *)
Definition loading_warmup : event :=
  loading "Compiling shaders and warming up model...".

(** From [w] to [w'] the worker posted events, none of them an error
    event. *)
Definition posts_no_error (w w' : world) : Prop :=
  exists es, outbox w' = (outbox w ++ es)%list /\ Forall (fun e => is_error e = false) es.

(** ** Concrete collaborators for examples *)

Module Stub.

(** A timer that advances 250 ms per reading, from 1000 ms. *)
Definition timer (k : nat) : float :=
  (1000 + 250 * number_of_count (Z.of_nat k))%float.

Definition special (t : token) : bool := (t <? 0)%Z.

Fixpoint show (ts : list token) : string :=
  match ts with
  | [] => EmptyString
  | t :: ts =>
      (if special t then "<eos>"
       else if (t =? 1)%Z then "Hel"
       else if (t =? 2)%Z then "lo"
       else "hi:") +:+ show ts
  end.

Definition encoding : BatchEncoding :=
  {| enc_input_ids := [[7%Z]]; enc_attention_mask := [[1%Z]] |}.

(** A tokenizer whose chat template gives a string for an empty
    history and an encoding otherwise. *)
Definition engine : External :=
  {| performance_now := timer;
     apply_chat_template := fun _ ms =>
       match ms with [] => JSString EmptyString | _ => JSObject encoding end;
     tokenizer_call := fun _ _ => encoding;
     decode := fun _ ts skip => show (if skip then filter (fun t => special t = false) ts else ts);
     batch_decode := fun _ rows skip =>
       map (fun ts => show (if skip then filter (fun t => special t = false) ts else ts)) rows |}.

Definition cfg : Config :=
  {| modelName := "M"; dtype := "q4f16"; device := "cpu" |}.

Definition cfg2 : Config :=
  {| modelName := "N"; dtype := "fp16"; device := "webgpu" |}.

Definition hi : list Message := [ {| role := "user"; content := "hi" |} ].

Definition msg (t : string) (ms : list Message) (c : Config) : MessageData :=
  {| type := JSString t; data := ms; config := c |}.

Definition info (s f : string) : ProgressInfo :=
  {| pi_status := s; pi_file := f; pi_progress := 0; pi_total := 100 |}.

(** Three steps of a decoding loop on the prompt [7]: "Hel", "lo", and
    the end-of-sequence token, at which the engine's own criteria hold. *)
Definition step1 : decode_step :=
  {| ds_tokens := [1%Z]; ds_rows := [([7; 1]%Z, false)] |}.
Definition step2 : decode_step :=
  {| ds_tokens := [2%Z]; ds_rows := [([7; 1; 2]%Z, false)] |}.
Definition step3 : decode_step :=
  {| ds_tokens := [(-1)%Z]; ds_rows := [([7; 1; 2; -1]%Z, true)] |}.

(** A worker whose load command went through. *)
Definition loaded : world :=
  run engine
    [Message_event (msg "load" [] cfg);
     Loader_settles 0 None; Loader_settles 1 None; Warmup_done 0] fresh.

(** A loaded worker in the middle of a generation, one fragment out. *)
Definition decoding : world :=
  run engine [Message_event (msg "generate" hi cfg); Decode_step 1 step1] loaded.

(** A worker whose tokenizer failed to load. *)
Definition failed : world :=
  run engine
    [Message_event (msg "load" [] cfg); Loader_settles 0 (Some "network failure")]
    fresh.

End Stub.

(** ** More vocabulary: the life of the worker *)

(** The interrupt flag after an occurrence, read off the message types
    alone. *)
Definition flag_after (b : bool) (o : occurrence) : bool :=
  match o with
  | Message_event d =>
      if strict_eq_string (type d) "load" then b
      else if strict_eq_string (type d) "generate" then false
      else if strict_eq_string (type d) "interrupt" then true
      else if strict_eq_string (type d) "reset" then false
      else b
  | _ => b
  end.

(** From [w] to [w'] the flag, the pipeline and the loader log are what
    they were. *)
Definition kept (w w' : world) : Prop :=
  stopping_criteria w' = stopping_criteria w
  /\ pipeline w' = pipeline w
  /\ loads w' = loads w.

(** The occurrence is a command that asks for the resource: a load or
    a generate message. *)
Definition asks_for_resource (o : occurrence) : bool :=
  match o with
  | Message_event d =>
      strict_eq_string (type d) "load" || strict_eq_string (type d) "generate"
  | _ => false
  end.

(** The events the worker makes itself, as opposed to the loader's
    reports it republishes and to the error event. *)
Definition own_event (e : event) : bool :=
  match e with
  | republished _ | error _ => false
  | _ => true
  end.

(** From [w] to [w'] the worker posted events of its own making only. *)
Definition posts_own (w w' : world) : Prop :=
  exists es, outbox w' = (outbox w ++ es)%list /\ Forall (fun e => own_event e = true) es.

(** No loader call was given a progress callback. *)
Definition no_callback (w : world) : Prop :=
  Forall (fun c => call_progress_callback c.1 = None) (loads w).

(** The resource is in the pipeline and no loader call was given a
    progress callback. *)
Definition acquired_without_callback (w : world) : Prop :=
  no_callback w
  /\ (exists t, tokenizer (pipeline w) = Some t)
  /\ (exists m, model (pipeline w) = Some m).

(** * The page: App.tsx and const.ts *)

(** ** const.ts *)

Definition modelNames : list string :=
  ["onnx-community/DeepSeek-R1-Distill-Qwen-1.5B-ONNX";
   "onnx-community/Llama-3.2-3B-Instruct-onnx-web";
   "onnx-community/Phi-3.5-mini-instruct-onnx-web";
   "Xenova/Phi-3-mini-4k-instruct_fp16";
   "Xenova/Phi-3-mini-4k-instruct";
   "schmuell/DeepSeek-R1-Distill-Qwen-1.5B-onnx"]%list.

Definition dtypes : list string :=
  ["auto"; "fp32"; "fp16"; "q8"; "int8"; "uint8"; "q4"; "bnb4"; "q4f16"]%list.

Definition devices : list string :=
  ["auto"; "gpu"; "cpu"; "wasm"; "webgpu"; "cuda"; "dml"; "webnn";
   "webnn-npu"; "webnn-gpu"; "webnn-cpu"]%list.

(** ** What the page reads of a message of the worker

    [e.data] is the object the worker posted. A field the object does
    not have reads as [undefined], here [None]. *)

(** [e.data.status] *)
Definition status_of (e : event) : string :=
  match e with
  | loading _ => "loading"
  | republished x => pi_status x
  | ready => "ready"
  | start => "start"
  | update _ _ _ => "update"
  | complete _ => "complete"
  | error _ => "error"
  end.

(** [e.data.data] *)
Definition data_of (e : event) : option string :=
  match e with loading d => Some d | _ => None end.

(** [e.data.file] *)
Definition file_of (e : event) : option string :=
  match e with republished x => Some (pi_file x) | _ => None end.

(** [const { output, tps, numTokens } = e.data], as the update case
    reads them. *)
Definition output_of (e : event) : option string :=
  match e with update o _ _ => Some o | _ => None end.
Definition tps_of (e : event) : option float :=
  match e with update _ t _ => t | _ => None end.
Definition numTokens_of (e : event) : option Z :=
  match e with update _ _ n => Some n | _ => None end.

(** [e.data.error] *)
Definition error_of (e : event) : option string :=
  match e with error s => Some s | _ => None end.

(** [content + output] on a string and a value that may be undefined. *)
Definition js_plus (s : string) (o : option string) : string :=
  s +:+ match o with Some t => t | None => "undefined" end.

(** The messages the page posts to the worker. The load message has no
    [data] field (the worker's load case does not read it). *)
Definition generate_message (ms : list Message) (c : Config) : MessageData :=
  {| type := JSString "generate"; data := ms; config := c |}.
Definition load_message (c : Config) : MessageData :=
  {| type := JSString "load"; data := []; config := c |}.

Module App.

(** The state of the component, one field per [useState]. *)
Record State := {
  status : string;
  loadingMessage : option string;
  progressItems : option (list event);   (* useState() without a value: undefined *)
  isRunning : bool;
  input : string;
  messages : list Message;
  tps : option float;
  numTokens : option Z;
  modelName : string;
  dtype : string;
  device : string;
  error : option string
}.

Definition initial : State :=
  {| status := EmptyString;
     loadingMessage := Some EmptyString;
     progressItems := None;
     isRunning := false;
     input := EmptyString;
     messages := [];
     tps := Some 0%float;
     numTokens := Some 0%Z;
     modelName := "schmuell/DeepSeek-R1-Distill-Qwen-1.5B-onnx";
     dtype := "q4f16";
     device := "webgpu";
     error := Some EmptyString |}.

Definition setStatus (v : string) (s : State) : State :=
  {| status := v; loadingMessage := loadingMessage s; progressItems := progressItems s;
     isRunning := isRunning s; input := input s; messages := messages s; tps := tps s;
     numTokens := numTokens s; modelName := modelName s; dtype := dtype s;
     device := device s; error := error s |}.

Definition setLoadingMessage (v : option string) (s : State) : State :=
  {| status := status s; loadingMessage := v; progressItems := progressItems s;
     isRunning := isRunning s; input := input s; messages := messages s; tps := tps s;
     numTokens := numTokens s; modelName := modelName s; dtype := dtype s;
     device := device s; error := error s |}.

Definition setProgressItems (v : option (list event)) (s : State) : State :=
  {| status := status s; loadingMessage := loadingMessage s; progressItems := v;
     isRunning := isRunning s; input := input s; messages := messages s; tps := tps s;
     numTokens := numTokens s; modelName := modelName s; dtype := dtype s;
     device := device s; error := error s |}.

Definition setIsRunning (v : bool) (s : State) : State :=
  {| status := status s; loadingMessage := loadingMessage s;
     progressItems := progressItems s;
     isRunning := v; input := input s; messages := messages s; tps := tps s;
     numTokens := numTokens s; modelName := modelName s; dtype := dtype s;
     device := device s; error := error s |}.

Definition setInput (v : string) (s : State) : State :=
  {| status := status s; loadingMessage := loadingMessage s;
     progressItems := progressItems s;
     isRunning := isRunning s; input := v; messages := messages s; tps := tps s;
     numTokens := numTokens s; modelName := modelName s; dtype := dtype s;
     device := device s; error := error s |}.

Definition setMessages (v : list Message) (s : State) : State :=
  {| status := status s; loadingMessage := loadingMessage s;
     progressItems := progressItems s;
     isRunning := isRunning s; input := input s; messages := v; tps := tps s;
     numTokens := numTokens s; modelName := modelName s; dtype := dtype s;
     device := device s; error := error s |}.

Definition setTps (v : option float) (s : State) : State :=
  {| status := status s; loadingMessage := loadingMessage s;
     progressItems := progressItems s;
     isRunning := isRunning s; input := input s; messages := messages s; tps := v;
     numTokens := numTokens s; modelName := modelName s; dtype := dtype s;
     device := device s; error := error s |}.

Definition setNumTokens (v : option Z) (s : State) : State :=
  {| status := status s; loadingMessage := loadingMessage s;
     progressItems := progressItems s;
     isRunning := isRunning s; input := input s; messages := messages s; tps := tps s;
     numTokens := v; modelName := modelName s; dtype := dtype s;
     device := device s; error := error s |}.

Definition setModelName (v : string) (s : State) : State :=
  {| status := status s; loadingMessage := loadingMessage s;
     progressItems := progressItems s;
     isRunning := isRunning s; input := input s; messages := messages s; tps := tps s;
     numTokens := numTokens s; modelName := v; dtype := dtype s;
     device := device s; error := error s |}.

Definition setDtype (v : string) (s : State) : State :=
  {| status := status s; loadingMessage := loadingMessage s;
     progressItems := progressItems s;
     isRunning := isRunning s; input := input s; messages := messages s; tps := tps s;
     numTokens := numTokens s; modelName := modelName s; dtype := v;
     device := device s; error := error s |}.

Definition setDevice (v : string) (s : State) : State :=
  {| status := status s; loadingMessage := loadingMessage s;
     progressItems := progressItems s;
     isRunning := isRunning s; input := input s; messages := messages s; tps := tps s;
     numTokens := numTokens s; modelName := modelName s; dtype := dtype s;
     device := v; error := error s |}.

Definition setError (v : option string) (s : State) : State :=
  {| status := status s; loadingMessage := loadingMessage s;
     progressItems := progressItems s;
     isRunning := isRunning s; input := input s; messages := messages s; tps := tps s;
     numTokens := numTokens s; modelName := modelName s; dtype := dtype s;
     device := device s; error := v |}.

(** The update case's state updater:
<<
  const cloned = prev.concat([]);
  const last = cloned.at(-1);
  if (last === undefined) return [];
  cloned[cloned.length - 1] = { ...last, content: last.content + output };
  return cloned;
>> *)
Definition append_output (output : option string) (prev : list Message) : list Message :=
  match last prev with
  | None => []
  | Some l =>
      <[length prev - 1 := {| role := role l; content := js_plus (content l) output |}]>
        prev
  end.

(** [onMessageReceived]: the switch over [e.data.status]. In the
    progress case [{ ...item, ...e.data }] is [e.data], since a report
    carries every field an item has. *)
Definition onMessageReceived (e : event) (s : State) : State :=
  let st := status_of e in
  if bool_decide (st = "loading") then
    setLoadingMessage (data_of e) (setStatus "loading" s)
  else if bool_decide (st = "initiate") then
    setProgressItems ((fun prev : list event => prev ++ [e])%list <$> progressItems s) s
  else if bool_decide (st = "progress") then
    setProgressItems
      ((fun prev : list event =>
          (fun item => if bool_decide (file_of item = file_of e) then e else item)
            <$> prev)
         <$> progressItems s) s
  else if bool_decide (st = "done") then
    setProgressItems
      ((fun prev : list event => filter (fun item => file_of item <> file_of e) prev)
         <$> progressItems s) s
  else if bool_decide (st = "ready") then
    setStatus "ready" s
  else if bool_decide (st = "start") then
    setMessages (messages s ++ [{| role := "assistant"; content := EmptyString |}])%list s
  else if bool_decide (st = "update") then
    setMessages (append_output (output_of e) (messages s))
      (setNumTokens (numTokens_of e) (setTps (tps_of e) s))
  else if bool_decide (st = "complete") then
    setIsRunning false s
  else if bool_decide (st = "error") then
    setError (error_of e) s
  else s.

(** [onEnter(message)] *)
Definition onEnter (message : string) (s : State) : State :=
  setInput EmptyString
    (setIsRunning true
       (setTps (Some 0%float)
          (setMessages (messages s ++ [{| role := "user"; content := message |}])%list s))).

(** The [onKeyDown] handler of the text area. *)
Definition onKeyDown (key : string) (shiftKey : bool) (s : State) : State :=
  if (0 <? String.length (input s))%nat && negb (isRunning s)
     && bool_decide (key = "Enter") && negb shiftKey
  then onEnter (input s) s
  else s.

(** The effect on [messages]: what it posts, if anything, and the state
    it leaves. *)
Definition generate_effect (s : State) : State * option MessageData :=
  if bool_decide (length (filter (fun x => role x = "user") (messages s)) = 0%nat)
  then (s, None)
  else if bool_decide (role <$> last (messages s) = Some "assistant")
  then (s, None)
  else (setTps (Some 0%float) s,
        Some (generate_message (messages s)
                (Build_Config (modelName s) (dtype s) (device s)))).

(** The click on "Load model". *)
Definition click_load (s : State) : State * MessageData :=
  (setStatus "loading" s,
   load_message (Build_Config (modelName s) (dtype s) (device s))).

(** The click on "Reset": posts [{ type: "reset" }] and empties the
    history. *)
Definition click_reset (s : State) : State := setMessages [] s.

(** The [onChange] handlers of the three selects. *)
Definition change_modelName (v : string) (s : State) : State :=
  if bool_decide (v ∈ modelNames) then setModelName v s else s.
Definition change_dtype (v : string) (s : State) : State :=
  if bool_decide (v ∈ dtypes) then setDtype v s else s.
Definition change_device (v : string) (s : State) : State :=
  if bool_decide (v ∈ devices) then setDevice v s else s.

(** One call of a handler of the page. [onInterrupt] is not among
    them: it posts an interrupt message and leaves the state as it is.
    [Enter] and [Key_down] are taken with any argument and in any
    state, also where the page would not offer them. *)
Inductive call :=
| Worker_message (e : event)
| Enter (message : string)
| Key_down (key : string) (shiftKey : bool)
| Input (value : string)
| Effect
| Click_load
| Click_reset
| Change_modelName (v : string)
| Change_dtype (v : string)
| Change_device (v : string).

Definition handle (s : State) (c : call) : State :=
  match c with
  | Worker_message e => onMessageReceived e s
  | Enter m => onEnter m s
  | Key_down k sh => onKeyDown k sh s
  | Input v => setInput v s
  | Effect => (generate_effect s).1
  | Click_load => (click_load s).1
  | Click_reset => click_reset s
  | Change_modelName v => change_modelName v s
  | Change_dtype v => change_dtype v s
  | Change_device v => change_device v s
  end.

(** The page after the worker's messages [es], in order. *)
Definition receive (es : list event) (s : State) : State :=
  foldl (fun s e => onMessageReceived e s) s es.

End App.

(** The text of a list of fragments, in order. *)
Definition concat_strings (l : list string) : string :=
  foldr String.append EmptyString l.

(** A message event of the worker that does not end the running state
    of the page. *)
Definition not_complete (c : App.call) : Prop :=
  match c with
  | App.Worker_message e => status_of e <> "complete"
  | _ => True
  end.

(** * Properties *)

Open Scope list_scope.

Section Properties.

Variable E : External.

(** ** The listener, case by case *)

Lemma listener_load d w :
  type d = JSString "load" ->
  listener E d w = spawn (load E (config d) w).
Proof. intros H. unfold listener, try_block. rewrite H. reflexivity. Qed.

Lemma listener_generate d w :
  type d = JSString "generate" ->
  listener E d w =
  spawn (generate E (data d) (config d)
           (set_stopping_criteria (reset (stopping_criteria w)) w)).
Proof. intros H. unfold listener, try_block. rewrite H. reflexivity. Qed.

Lemma listener_interrupt d w :
  type d = JSString "interrupt" ->
  listener E d w = set_stopping_criteria (interrupt (stopping_criteria w)) w.
Proof. intros H. unfold listener, try_block. rewrite H. reflexivity. Qed.

Lemma listener_reset d w :
  type d = JSString "reset" ->
  listener E d w = set_stopping_criteria (reset (stopping_criteria w)) w.
Proof. intros H. unfold listener, try_block. rewrite H. reflexivity. Qed.

(** The [try] block never ends by a throw: the [catch] clause has
    nothing to catch. *)
Lemma try_block_normal d w : exists w', try_block E d w = normal w'.
Proof.
  unfold try_block.
  repeat (match goal with |- context [if ?b then _ else _] => destruct b end);
    eauto.
Qed.

(** ** getInstance *)

Lemma getInstance_hit config cb0 w tok mdl :
  tokenizer (pipeline w) = Some tok ->
  model (pipeline w) = Some mdl ->
  getInstance config cb0 w =
  ((tok, mdl),
   set_pipeline {| model_id := Some (modelName config);
                   tokenizer := Some tok; model := Some mdl |} w).
Proof.
  intros Ht Hm. unfold getInstance. cbn. rewrite Ht. cbn. rewrite Hm. reflexivity.
Qed.

Lemma getInstance_miss config cb0 w :
  tokenizer (pipeline w) = None ->
  model (pipeline w) = None ->
  getInstance config cb0 w =
  ((length (loads w), S (length (loads w))),
   set_pipeline {| model_id := Some (modelName config);
                   tokenizer := Some (length (loads w));
                   model := Some (S (length (loads w))) |}
     (set_loads
        (loads w ++
         [(AutoTokenizer_from_pretrained (modelName config) true cb0, Pending);
          (AutoModelForCausalLM_from_pretrained
             (modelName config) (dtype config) (device config) true cb0, Pending)])
        w)).
Proof.
  intros Ht Hm. unfold getInstance. cbn. rewrite Ht. cbn. rewrite Hm. cbn.
  rewrite length_app. cbn. rewrite Nat.add_1_r, <- app_assoc. reflexivity.
Qed.

Lemma Promise_all_loads w w' tok mdl :
  loads w = loads w' -> Promise_all w tok mdl = Promise_all w' tok mdl.
Proof. intros H. unfold Promise_all, promise_state. rewrite H. reflexivity. Qed.

Lemma generate_at_getInstance_stopping_criteria ms tok mdl w :
  stopping_criteria (generate_at_getInstance E ms tok mdl w).2 = stopping_criteria w.
Proof.
  unfold generate_at_getInstance, generate_after_getInstance.
  destruct (Promise_all w tok mdl); [reflexivity | | reflexivity].
  destruct (negb _); reflexivity.
Qed.

Lemma getInstance_stopping_criteria config cb0 w :
  stopping_criteria (getInstance config cb0 w).2 = stopping_criteria w.
Proof.
  unfold getInstance. cbn.
  destruct (tokenizer (pipeline w)); cbn; destruct (model (pipeline w)); reflexivity.
Qed.

Lemma generate_stopping_criteria ms config w :
  stopping_criteria (generate E ms config w).2 = stopping_criteria w.
Proof.
  unfold generate.
  pose proof (getInstance_stopping_criteria config None w) as H.
  destruct (getInstance config None w) as [[tok mdl] w1]. cbn in H.
  rewrite generate_at_getInstance_stopping_criteria. exact H.
Qed.

(** ** The listener and the cache *)

(** C10. A message whose [type] is none of load, generate, interrupt
    and reset leaves the worker as it was: no field of the state
    changes and nothing is posted, in particular no error event. *)
Theorem unknown_command_ignored d w :
  type d <> JSString "load" ->
  type d <> JSString "generate" ->
  type d <> JSString "interrupt" ->
  type d <> JSString "reset" ->
  deliver E (Message_event d) w = w.
Proof.
  intros Hl Hg Hi Hr. cbn. unfold listener, try_block.
  destruct (type d) as [ | | b | n | s | o]; try reflexivity.
  cbn. rewrite !bool_decide_eq_false_2 by congruence. reflexivity.
Qed.

(** C7. Handling a generate command resets the interrupt flag once and
    then starts the session, so the session begins with the flag down
    whatever it was before and the next poll of the stopping criteria
    sees it down; a reset command puts the flag down and an interrupt
    command puts it up, and neither does anything else: the interrupt
    command posts no event. *)
Theorem router_resets_then_generates ms c w :
  let gen := {| type := JSString "generate"; data := ms; config := c |} in
  let rst := {| type := JSString "reset"; data := ms; config := c |} in
  let int := {| type := JSString "interrupt"; data := ms; config := c |} in
  (deliver E (Message_event gen) w =
     spawn (generate E ms c (set_stopping_criteria (reset (stopping_criteria w)) w))
   /\ interrupted (stopping_criteria
                     (set_stopping_criteria (reset (stopping_criteria w)) w)) = false
   /\ interrupted (stopping_criteria (deliver E (Message_event gen) w)) = false
   /\ forall ids, _call (stopping_criteria (deliver E (Message_event gen) w)) ids
                  = replicate (length ids) false)
  /\ deliver E (Message_event rst) w = set_stopping_criteria {| interrupted := false |} w
  /\ deliver E (Message_event int) w = set_stopping_criteria {| interrupted := true |} w
  /\ outbox (deliver E (Message_event int) w) = outbox w.
Proof.
  intros gen rst int.
  assert (Hgen : interrupted (stopping_criteria (deliver E (Message_event gen) w)) = false).
  { cbn. rewrite listener_generate by reflexivity.
    unfold spawn. cbn. rewrite generate_stopping_criteria. reflexivity. }
  split; [ | split; [ | split ] ].
  - split; [ | split; [ | split ] ].
    + cbn. apply listener_generate. reflexivity.
    + reflexivity.
    + exact Hgen.
    + intros ids. unfold _call. rewrite Hgen. reflexivity.
  - cbn. apply listener_reset. reflexivity.
  - cbn. apply listener_interrupt. reflexivity.
  - cbn. rewrite listener_interrupt by reflexivity. reflexivity.
Qed.

(** C8. When the chat template gives something whose [typeof] is not
    "object", the session ends there: the rest of [generate] returns
    without posting anything and without touching the worker, and the
    whole command posts no start, update, complete or error event. *)
Theorem generate_without_object_is_silent d w tok mdl :
  type d = JSString "generate" ->
  tokenizer (pipeline w) = Some tok ->
  model (pipeline w) = Some mdl ->
  Promise_all w tok mdl = Fulfilled ->
  js_typeof (apply_chat_template E tok (data d)) <> "object" ->
  (forall w0, generate_after_getInstance E (data d) tok mdl w0 = (returned, w0))
  /\ let w' := deliver E (Message_event d) w in
     outbox w' = outbox w
     /\ unhandled w' = unhandled w
     /\ loads w' = loads w
     /\ clock_reads w' = clock_reads w
     /\ tasks w' = tasks w ++ [returned].
Proof.
  intros Hty Ht Hm Hall Hobj.
  assert (Hseg : forall w0,
             generate_after_getInstance E (data d) tok mdl w0 = (returned, w0)).
  { intros w0. unfold generate_after_getInstance.
    rewrite bool_decide_eq_false_2 by exact Hobj. reflexivity. }
  split; [exact Hseg | ].
  cbn. rewrite listener_generate by exact Hty.
  unfold generate. erewrite getInstance_hit by (cbn; eassumption).
  unfold generate_at_getInstance.
  erewrite Promise_all_loads by (cbn; reflexivity). rewrite Hall, Hseg.
  cbn. repeat split; reflexivity.
Qed.

(** C4, as the code has it. The cache is one slot for the whole worker
    and does not look at the Config. An acquire on an empty cache starts
    one tokenizer load and one model load with the fields of its Config.
    Every acquire after that, for an equal or a different Config, with
    or without a progress callback, while the loads are pending or after
    they settled, returns the same two promises, starts no load, hands
    its callback to nobody and posts nothing. *)
Theorem getInstance_is_one_slot config cb0 w :
  tokenizer (pipeline w) = None ->
  model (pipeline w) = None ->
  let r1 := getInstance config cb0 w in
  loads r1.2 =
    loads w ++
    [(AutoTokenizer_from_pretrained (modelName config) true cb0, Pending);
     (AutoModelForCausalLM_from_pretrained
        (modelName config) (dtype config) (device config) true cb0, Pending)]
  /\ forall config' cb' w1,
       tokenizer (pipeline w1) = tokenizer (pipeline r1.2) ->
       model (pipeline w1) = model (pipeline r1.2) ->
       let r2 := getInstance config' cb' w1 in
       r2.1 = r1.1
       /\ loads r2.2 = loads w1
       /\ outbox r2.2 = outbox w1
       /\ tokenizer (pipeline r2.2) = tokenizer (pipeline r1.2)
       /\ model (pipeline r2.2) = model (pipeline r1.2).
Proof.
  intros Ht Hm r1. subst r1. rewrite (getInstance_miss _ _ _ Ht Hm). cbn.
  split; [reflexivity | ].
  intros config' cb' w1 Ht1 Hm1.
  rewrite (getInstance_hit config' cb' w1 _ _ Ht1 Hm1). cbn.
  repeat split; reflexivity.
Qed.

(** C5, as the code has it. Once an acquire has failed, the rejected
    promise stays in the cache: a later load command, whatever its
    Config, starts no load and ends with the same rejection. *)
Theorem load_after_failure_keeps_rejection d w tok mdl r :
  type d = JSString "load" ->
  tokenizer (pipeline w) = Some tok ->
  model (pipeline w) = Some mdl ->
  Promise_all w tok mdl = Rejected r ->
  let w' := deliver E (Message_event d) w in
  loads w' = loads w
  /\ tokenizer (pipeline w') = Some tok
  /\ model (pipeline w') = Some mdl
  /\ tasks w' = tasks w ++ [rejected r].
Proof.
  intros Hty Ht Hm Hall. cbn. rewrite listener_load by exact Hty.
  unfold load. erewrite getInstance_hit by (cbn; eassumption).
  unfold load_at_getInstance.
  erewrite Promise_all_loads by (cbn; reflexivity). rewrite Hall.
  cbn. repeat split; reflexivity.
Qed.


(** ** The streaming callback *)

Lemma UpdateEvents_snoc r0 fs f :
  UpdateEvents E r0 (fs ++ [f]) =
  UpdateEvents E r0 fs ++ [UpdateEvent E r0 (S (length fs)) f].
Proof.
  unfold UpdateEvents. rewrite imap_app. cbn. rewrite Nat.add_0_r. reflexivity.
Qed.

Lemma feed_snoc fs f cw :
  feed E (fs ++ [f]) cw = cb E f (feed E fs cw).1 (feed E fs cw).2.
Proof. unfold feed. rewrite foldl_snoc. reflexivity. Qed.

(** What [cb] leaves alone, and the one event it posts. *)
Lemma cb_frame f c w :
  let r := cb E f c w in
  stopping_criteria r.2 = stopping_criteria w
  /\ pipeline r.2 = pipeline w
  /\ loads r.2 = loads w
  /\ tasks r.2 = tasks w
  /\ unhandled r.2 = unhandled w
  /\ exists tps, outbox r.2 = outbox w ++ [update f tps (numTokens c + 1)].
Proof.
  unfold cb, now.
  destruct (startTime c); destruct (0 <? numTokens c)%Z; cbn;
    repeat split; eauto.
Qed.

(** The state after a fresh closure has seen a sequence of fragments. *)
Lemma feed_fresh fs w :
  let r := feed E fs ({| startTime := None; numTokens := 0 |}, w) in
  numTokens r.1 = Z.of_nat (length fs)
  /\ startTime r.1 =
       match fs with
       | [] => None
       | _ => Some (performance_now E (clock_reads w))
       end
  /\ clock_reads r.2 = clock_reads w + length fs
  /\ outbox r.2 = outbox w ++ UpdateEvents E (clock_reads w) fs
  /\ stopping_criteria r.2 = stopping_criteria w
  /\ pipeline r.2 = pipeline w
  /\ loads r.2 = loads w
  /\ tasks r.2 = tasks w
  /\ unhandled r.2 = unhandled w.
Proof.
  induction fs as [ | f fs IH] using rev_ind.
  - cbn. rewrite app_nil_r, Nat.add_0_r. repeat split; reflexivity.
  - cbn zeta in *. rewrite feed_snoc.
    destruct (feed E fs _) as [c w1]. cbn [fst snd] in *.
    destruct IH as (Hn & Hs & Hr & Ho & Hsc & Hp & Hl & Ht & Hu).
    rewrite UpdateEvents_snoc, length_app. cbn [length].
    unfold cb, now. rewrite Hs, Hn.
    destruct fs as [ | f0 fs'].
    + change (Z.of_nat (length (@nil string))) with 0%Z.
      change (0 <? 0)%Z with false. cbn. rewrite Hr, Ho, Hsc, Hp, Hl, Ht, Hu. cbn.
      rewrite Nat.add_0_r, app_nil_r. repeat split; try reflexivity; try lia.
    + replace (0 <? Z.of_nat (length (f0 :: fs')))%Z with true
        by (symmetry; apply Z.ltb_lt; cbn [length]; lia).
      cbn [fst snd numTokens startTime clock_reads outbox stopping_criteria
           pipeline loads tasks unhandled set_clock_reads postMessage].
      rewrite Hr, Ho, Hsc, Hp, Hl, Ht, Hu.
      repeat split; try reflexivity; try lia.
      rewrite <- app_assoc. do 2 f_equal.
      unfold UpdateEvent, tokensPerSecond. cbn [length].
      replace (clock_reads w + S (S (length fs')) - 1)
        with (clock_reads w + S (length fs')) by lia.
      replace (Z.of_nat (S (S (length fs'))))
        with (Z.of_nat (S (length fs')) + 1)%Z by lia.
      reflexivity.
Qed.

Lemma UpdateEvents_take r0 k fs :
  UpdateEvents E r0 (take k fs) = take k (UpdateEvents E r0 fs).
Proof.
  apply list_eq. intros i. unfold UpdateEvents.
  rewrite list_lookup_imap, !lookup_take, list_lookup_imap.
  case_decide; reflexivity.
Qed.

(** C3. Fed to a fresh aggregator, N fragments give N update events in
    the order of arrival, the i-th of them posted by the i-th call and
    present as soon as the first i fragments have arrived. The i-th
    event (from 1) carries the i-th fragment and token count i; its
    tokens per second are undefined exactly for i = 1 and are otherwise
    the count divided by the milliseconds between the timer reading
    taken at the first fragment and the one taken at this fragment,
    times 1000. *)
Theorem aggregator_counts_and_rates fragments w :
  let fresh_closure := {| startTime := None; numTokens := 0 |} in
  let r0 := clock_reads w in
  let evs := UpdateEvents E r0 fragments in
  outbox (feed E fragments (fresh_closure, w)).2 = outbox w ++ evs
  /\ length evs = length fragments
  /\ (forall k, outbox (feed E (take k fragments) (fresh_closure, w)).2
               = outbox w ++ take k evs)
  /\ (forall i text, fragments !! i = Some text ->
        exists tps,
          evs !! i = Some (update text tps (Z.of_nat (S i)))
          /\ (tps = None <-> S i = 1)
          /\ (1 < S i ->
              tps = Some (number_of_count (Z.of_nat (S i))
                          / (performance_now E (r0 + i) - performance_now E r0)
                          * 1000)%float)).
Proof.
  intros c0 r0 evs.
  split; [ | split; [ | split ] ].
  - apply (feed_fresh fragments w).
  - apply length_imap.
  - intros k. subst evs r0. rewrite <- UpdateEvents_take.
    apply (feed_fresh (take k fragments) w).
  - intros i text Hi. exists (tokensPerSecond E r0 (S i)).
    split; [ | split ].
    + subst evs. unfold UpdateEvents. rewrite list_lookup_imap, Hi. reflexivity.
    + destruct i; cbn; split; intros H; try reflexivity; try discriminate; lia.
    + intros Hlt. destruct i as [ | i]; [lia | ].
      unfold tokensPerSecond.
      replace (r0 + S (S i) - 1) with (r0 + S i) by lia. reflexivity.
Qed.

(** ** The decoding loop *)

(** Reads a field of a world through the setters around it. *)
Ltac fields :=
  cbn [stopping_criteria pipeline loads tasks clock_reads outbox unhandled
       set_task set_tasks set_loads set_pipeline set_stopping_criteria
       set_clock_reads postMessage unhandled_rejection spawn fst snd].

Lemma run_cons o os w : run E (o :: os) w = run E os (deliver E o w).
Proof. reflexivity. Qed.

Lemma run_app os1 os2 w : run E (os1 ++ os2) w = run E os2 (run E os1 w).
Proof. unfold run. apply foldl_app. Qed.

(** With no criterion given the engine's own criteria decide. *)
Lemma every_done_when_not_interrupted (rows : list (list token * bool)) :
  forallb id (zip_with orb rows.*2 (replicate (length rows.*1) false))
  = forallb id rows.*2.
Proof.
  induction rows as [ | [ids b] rows IH]; [reflexivity | ].
  cbn. rewrite orb_false_r, IH. reflexivity.
Qed.

Lemma cb_set_tasks f c ts w :
  cb E f c (set_tasks ts w) = ((cb E f c w).1, set_tasks ts (cb E f c w).2).
Proof.
  unfold cb, now. destruct (startTime c); destruct (0 <? numTokens c)%Z; reflexivity.
Qed.

Lemma cb_set_task f c i t w :
  cb E f c (set_task i t w) = ((cb E f c w).1, set_task i t (cb E f c w).2).
Proof.
  unfold set_task. rewrite cb_set_tasks. cbn [fst snd].
  destruct (cb_frame f c w) as (_ & _ & _ & Ht & _). rewrite Ht. reflexivity.
Qed.

Lemma set_task_set_task i t t' w :
  set_task i t' (set_task i t w) = set_task i t' w.
Proof.
  unfold set_task, set_tasks. cbn. rewrite list_insert_insert_eq. reflexivity.
Qed.

(** One step of the loop for a session started by [generate]. *)
Lemma decode_step_of_session i st w call tok c s :
  tasks w !! i = Some (generate_await_generate call tok c) ->
  gc_streamer call = Some s ->
  gc_stopping_criteria call = true ->
  decode_step_of E i st w =
  let r := cb E (fragment_of E s st) c w in
  if engine_done st
  then set_task i returned
         (postMessage (complete (batch_decode E tok (ds_rows st).*1 false)) r.2)
  else set_task i (generate_await_generate call tok r.1) r.2.
Proof.
  intros Hi Hs Hsc. unfold decode_step_of. rewrite Hi, Hs, Hsc.
  unfold on_finalized_text, fragment_of.
  pose proof (cb_frame (decode E (streamer_tokenizer s) (ds_tokens st)
                          (skip_special_tokens s)) c w) as Hf.
  cbn zeta in *.
  destruct (cb E _ c w) as [c1 w1]. cbn [fst snd] in *.
  unfold StoppingCriteriaList_call, criteria. cbn [foldl].
  rewrite every_done_when_not_interrupted. reflexivity.
Qed.

(** The loop goes on, step after step, while the engine's own criteria
    do not stop it: the fragments go through [cb] one by one. *)
Lemma decode_steps_run i steps w call tok c s :
  i < length (tasks w) ->
  gc_streamer call = Some s ->
  gc_stopping_criteria call = true ->
  interrupted (stopping_criteria w) = false ->
  Forall (fun st => engine_done st = false) steps ->
  run E (Decode_step i <$> steps) (set_task i (generate_await_generate call tok c) w) =
  let r := feed E (fragment_of E s <$> steps) (c, w) in
  set_task i (generate_await_generate call tok r.1) r.2.
Proof.
  intros Hi Hs Hsc. revert w c Hi.
  induction steps as [ | st steps IH]; intros w c Hi Hflag Hsteps; [reflexivity | ].
  apply Forall_cons in Hsteps as [Hst Hsteps].
  rewrite fmap_cons, run_cons. cbn [deliver].
  rewrite (decode_step_of_session i st _ call tok c s); cycle 1.
  { cbn. apply list_lookup_insert_eq. exact Hi. }
  { exact Hs. }
  { exact Hsc. }
  cbn zeta. rewrite Hst.
  fold (set_tasks (<[i:=generate_await_generate call tok c]> (tasks w)) w).
  fold (set_task i (generate_await_generate call tok c) w).
  rewrite cb_set_task.
  pose proof (cb_frame (fragment_of E s st) c w) as Hf. cbn zeta in Hf.
  destruct (cb E (fragment_of E s st) c w) as [c1 w1] eqn:Hcb. cbn [fst snd] in *.
  destruct Hf as (Hsc1 & _ & _ & Ht1 & _).
  rewrite set_task_set_task, IH.
  - unfold feed. cbn [fmap list_fmap foldl fst snd]. rewrite Hcb. reflexivity.
  - rewrite Ht1. exact Hi.
  - rewrite Hsc1. exact Hflag.
  - exact Hsteps.
Qed.

(** An interrupt command that arrives while a session is in the
    decoding loop puts the flag up, and that is all: at the next step
    the loop asks the criteria the list holds, which are none, so a
    step at which the engine's own criteria do not hold leaves the
    session in the loop; it posts the fragment of that step and no
    complete event. *)
Lemma interrupted_session_goes_on d w i call tok c s st :
  type d = JSString "interrupt" ->
  tasks w !! i = Some (generate_await_generate call tok c) ->
  gc_streamer call = Some s ->
  gc_stopping_criteria call = true ->
  engine_done st = false ->
  let w1 := deliver E (Message_event d) w in
  let w2 := deliver E (Decode_step i st) w1 in
  interrupted (stopping_criteria w1) = true
  /\ (forall ids, _call (stopping_criteria w1) ids = replicate (length ids) true)
  /\ interrupted (stopping_criteria w2) = true
  /\ tasks w2 !! i =
       Some (generate_await_generate call tok (cb E (fragment_of E s st) c w1).1)
  /\ (exists tps,
        outbox w2 = outbox w ++ [update (fragment_of E s st) tps (numTokens c + 1)]).
Proof.
  intros Hty Hi Hs Hsc Hst w1 w2.
  assert (Hw1 : w1 = set_stopping_criteria {| interrupted := true |} w).
  { subst w1. cbn. apply listener_interrupt. exact Hty. }
  assert (Hw2 : w2 =
            set_task i (generate_await_generate call tok
                          (cb E (fragment_of E s st) c w1).1)
              (cb E (fragment_of E s st) c w1).2).
  { subst w2. cbn [deliver].
    rewrite (decode_step_of_session i st w1 call tok c s);
      [ | rewrite Hw1; exact Hi | exact Hs | exact Hsc ].
    cbn zeta. rewrite Hst. reflexivity. }
  destruct (cb_frame (fragment_of E s st) c w1) as (Hc1 & Hc2 & Hc3 & Hc4 & Hc5 & tps & Hc6).
  assert (Hlen : i < length (tasks w)) by (eapply lookup_lt_Some; exact Hi).
  split; [rewrite Hw1; reflexivity | ].
  split; [intros ids; rewrite Hw1; reflexivity | ].
  split; [ | split ].
  - rewrite Hw2. fields. rewrite Hc1, Hw1. reflexivity.
  - rewrite Hw2. fields. rewrite Hc4, Hw1. fields.
    apply list_lookup_insert_eq. exact Hlen.
  - exists tps. rewrite Hw2. fields. rewrite Hc6, Hw1. reflexivity.
Qed.

Lemma set_task_id i t w : tasks w !! i = Some t -> set_task i t w = w.
Proof.
  intros H. destruct w. unfold set_task, set_tasks. cbn in *.
  rewrite list_insert_id by exact H. reflexivity.
Qed.

(** A session that has just started to decode, with the flag down,
    whose loop runs to its natural end: one update per step, then the
    complete event. *)
Lemma session_runs i steps last w1 call tok s :
  tasks w1 !! i =
    Some (generate_await_generate call tok {| startTime := None; numTokens := 0 |}) ->
  gc_streamer call = Some s ->
  gc_stopping_criteria call = true ->
  interrupted (stopping_criteria w1) = false ->
  Forall (fun st => engine_done st = false) steps ->
  engine_done last = true ->
  let w' := run E (Decode_step i <$> steps ++ [last]) w1 in
  outbox w' =
    outbox w1
    ++ UpdateEvents E (clock_reads w1) (fragment_of E s <$> steps ++ [last])
    ++ [complete (batch_decode E tok (ds_rows last).*1 false)]
  /\ tasks w' !! i = Some returned
  /\ unhandled w' = unhandled w1.
Proof.
  intros Htask Hs Hsc Hflag Hsteps Hlast w'.
  assert (Hi : i < length (tasks w1)) by (eapply lookup_lt_Some; exact Htask).
  set (c0 := {| startTime := None; numTokens := 0 |}) in *.
  set (G := feed E ((fragment_of E s <$> steps) ++ [fragment_of E s last]) (c0, w1)).
  assert (Hw' : w' =
            set_task i returned
              (postMessage (complete (batch_decode E tok (ds_rows last).*1 false)) G.2)).
  { subst w'. rewrite <- (set_task_id i _ w1 Htask) at 1.
    rewrite fmap_app, run_app.
    rewrite (decode_steps_run i steps w1 call tok c0 s Hi Hs Hsc Hflag Hsteps).
    cbn zeta.
    set (F := feed E (fragment_of E s <$> steps) (c0, w1)).
    destruct (feed_fresh (fragment_of E s <$> steps) w1)
      as (_ & _ & _ & _ & _ & _ & _ & HtF & _).
    fold c0 in HtF. fold F in HtF.
    change (Decode_step i <$> [last]) with [Decode_step i last].
    change (run E [Decode_step i last] ?x) with (decode_step_of E i last x).
    rewrite (decode_step_of_session i last _ call tok F.1 s); cycle 1.
    { fields. apply list_lookup_insert_eq. rewrite HtF. exact Hi. }
    { exact Hs. }
    { exact Hsc. }
    rewrite Hlast. cbn zeta. rewrite cb_set_task. cbn [fst snd].
    assert (HF : cb E (fragment_of E s last) F.1 F.2 = G)
      by (subst G; rewrite feed_snoc; reflexivity).
    rewrite HF.
    change (postMessage ?e (set_task ?j ?t ?w)) with (set_task j t (postMessage e w)).
    apply set_task_set_task. }
  destruct (feed_fresh ((fragment_of E s <$> steps) ++ [fragment_of E s last]) w1)
    as (_ & _ & _ & Ho & _ & _ & _ & Hts & Hu).
  fold c0 in Ho, Hts, Hu. fold G in Ho, Hts, Hu.
  rewrite Hw'. fields.
  split; [ | split ].
  - rewrite Ho, fmap_app, <- !app_assoc. reflexivity.
  - apply list_lookup_insert_eq. rewrite Hts. exact Hi.
  - exact Hu.
Qed.

(** A generate command on an acquired resource whose request is
    encoded: the session starts to decode at once. *)
Lemma generate_starts d w tok mdl :
  type d = JSString "generate" ->
  tokenizer (pipeline w) = Some tok ->
  model (pipeline w) = Some mdl ->
  Promise_all w tok mdl = Fulfilled ->
  js_typeof (apply_chat_template E tok (data d)) = "object" ->
  let w1 := deliver E (Message_event d) w in
  tasks w1 !! length (tasks w) =
    Some (generate_await_generate
            {| gc_model := mdl;
               gc_inputs := spread (apply_chat_template E tok (data d));
               gc_max_new_tokens := 512;
               gc_streamer := Some (new_CallbackTextStreamer tok);
               gc_stopping_criteria := true |}
            tok {| startTime := None; numTokens := 0 |})
  /\ interrupted (stopping_criteria w1) = false
  /\ outbox w1 = outbox w ++ [start]
  /\ clock_reads w1 = clock_reads w
  /\ unhandled w1 = unhandled w.
Proof.
  intros Hty Ht Hm Hall Hobj.
  cbn. rewrite listener_generate by exact Hty.
  unfold generate. erewrite getInstance_hit by (cbn; eassumption).
  unfold generate_at_getInstance.
  erewrite Promise_all_loads by (cbn; reflexivity). rewrite Hall.
  unfold generate_after_getInstance.
  rewrite bool_decide_eq_true_2 by exact Hobj. cbn [negb]. fields.
  rewrite list_lookup_middle by reflexivity.
  repeat split; reflexivity.
Qed.

(** The first command of a worker is a generate command whose request
    is encoded: the session starts to decode when both loads are in. *)
Lemma generate_starts_unloaded d w (tok_first : bool) :
  type d = JSString "generate" ->
  tokenizer (pipeline w) = None ->
  model (pipeline w) = None ->
  loads w = [] ->
  tasks w = [] ->
  js_typeof (apply_chat_template E 0 (data d)) = "object" ->
  let h1 := if tok_first then 0 else 1 in
  let h2 := if tok_first then 1 else 0 in
  let w1 := run E [Message_event d; Loader_settles h1 None; Loader_settles h2 None] w in
  tasks w1 !! 0 =
    Some (generate_await_generate
            {| gc_model := 1;
               gc_inputs := spread (apply_chat_template E 0 (data d));
               gc_max_new_tokens := 512;
               gc_streamer := Some (new_CallbackTextStreamer 0);
               gc_stopping_criteria := true |}
            0 {| startTime := None; numTokens := 0 |})
  /\ interrupted (stopping_criteria w1) = false
  /\ outbox w1 = outbox w ++ [start]
  /\ clock_reads w1 = clock_reads w
  /\ unhandled w1 = unhandled w.
Proof.
  intros Hty Ht Hm Hl Hts Hobj h1 h2 w1.
  destruct w as [sc [mid t m] l ts r o u]. cbn in Ht, Hm, Hl, Hts. subst t m l ts.
  subst w1. rewrite !run_cons. cbn [deliver run foldl].
  rewrite listener_generate by exact Hty.
  unfold generate. rewrite getInstance_miss by reflexivity.
  destruct tok_first; subst h1 h2.
  - unfold loader_settles at 1 2. cbn.
    unfold generate_after_getInstance.
    rewrite !bool_decide_eq_true_2 by exact Hobj. cbn.
    repeat split; reflexivity.
  - unfold loader_settles at 1 2. cbn.
    unfold generate_after_getInstance.
    rewrite !bool_decide_eq_true_2 by exact Hobj. cbn.
    repeat split; reflexivity.
Qed.

(** C6. A generate command whose resource is acquired (it was there
    before, or the command is the first of the worker and both loads
    come in), whose request is encoded and whose decoding loop runs to
    its natural end, posts one start event, then one update event per
    step in the order of the steps, then one complete event, and its
    async call returns. Each update carries the ids of its step decoded
    with special tokens skipped; the complete event carries the final
    sequences decoded with special tokens kept. *)
Theorem generate_event_order d steps last :
  type d = JSString "generate" ->
  Forall (fun st => engine_done st = false) steps ->
  engine_done last = true ->
  (forall w tok mdl,
     tokenizer (pipeline w) = Some tok ->
     model (pipeline w) = Some mdl ->
     Promise_all w tok mdl = Fulfilled ->
     js_typeof (apply_chat_template E tok (data d)) = "object" ->
     let i := length (tasks w) in
     let w' := run E (Message_event d :: (Decode_step i <$> steps ++ [last])) w in
     outbox w' =
       outbox w ++ [start]
       ++ UpdateEvents E (clock_reads w)
            ((fun st => decode E tok (ds_tokens st) true) <$> steps ++ [last])
       ++ [complete (batch_decode E tok (ds_rows last).*1 false)]
     /\ tasks w' !! i = Some returned
     /\ unhandled w' = unhandled w)
  /\ (forall w (tok_first : bool),
       tokenizer (pipeline w) = None ->
       model (pipeline w) = None ->
       loads w = [] ->
       tasks w = [] ->
       js_typeof (apply_chat_template E 0 (data d)) = "object" ->
       let h1 := if tok_first then 0 else 1 in
       let h2 := if tok_first then 1 else 0 in
       let w' :=
         run E ([Message_event d; Loader_settles h1 None; Loader_settles h2 None]
                ++ (Decode_step 0 <$> steps ++ [last])) w in
       outbox w' =
         outbox w ++ [start]
         ++ UpdateEvents E (clock_reads w)
              ((fun st => decode E 0 (ds_tokens st) true) <$> steps ++ [last])
         ++ [complete (batch_decode E 0 (ds_rows last).*1 false)]
       /\ tasks w' !! 0 = Some returned
       /\ unhandled w' = unhandled w).
Proof.
  intros Hty Hsteps Hlast. split.
  - intros w tok mdl Ht Hm Hall Hobj i w'.
    destruct (generate_starts d w tok mdl Hty Ht Hm Hall Hobj)
      as (Htask & Hflag & Hout & Hclk & Hunh).
    destruct (session_runs i steps last _ _ tok (new_CallbackTextStreamer tok)
                Htask eq_refl eq_refl Hflag Hsteps Hlast)
      as (Ho & Hr & Hu).
    subst w'. rewrite run_cons.
    split; [ | split ].
    + rewrite Ho, Hout, Hclk, <- !app_assoc. reflexivity.
    + exact Hr.
    + rewrite Hu. exact Hunh.
  - intros w tok_first Ht Hm Hl Hts Hobj h1 h2 w'.
    destruct (generate_starts_unloaded d w tok_first Hty Ht Hm Hl Hts Hobj)
      as (Htask & Hflag & Hout & Hclk & Hunh).
    destruct (session_runs 0 steps last _ _ 0 (new_CallbackTextStreamer 0)
                Htask eq_refl eq_refl Hflag Hsteps Hlast)
      as (Ho & Hr & Hu).
    subst w' h1 h2. rewrite run_app.
    split; [ | split ].
    + rewrite Ho, Hout, Hclk, <- !app_assoc. reflexivity.
    + exact Hr.
    + rewrite Hu. exact Hunh.
Qed.

(** ** Loading *)

Lemma loader_progress_post h x w c :
  loads w !! h = Some (c, Pending) ->
  call_progress_callback c = Some post_progress ->
  loader_progress h x w = postMessage (republished x) w.
Proof. intros Hl Hc. unfold loader_progress. rewrite Hl, Hc. reflexivity. Qed.

(** While both loads are pending and report to the callback of [load],
    every report is posted as it comes. *)
Lemma run_progress ps w tok mdl ct cm :
  loads w !! tok = Some (ct, Pending) ->
  loads w !! mdl = Some (cm, Pending) ->
  call_progress_callback ct = Some post_progress ->
  call_progress_callback cm = Some post_progress ->
  run E (progress_of tok mdl <$> ps) w = posted (republished <$> ps.*2) w.
Proof.
  intros Ht Hm Hct Hcm. revert w Ht Hm.
  induction ps as [ | [b x] ps IH]; intros w Ht Hm.
  - destruct w. unfold posted. cbn. rewrite app_nil_r. reflexivity.
  - rewrite fmap_cons, run_cons.
    change (deliver E (progress_of tok mdl (b, x)) w)
      with (loader_progress (if b then tok else mdl) x w).
    rewrite (loader_progress_post _ x w (if b then ct else cm));
      [ | destruct b; assumption | destruct b; assumption ].
    rewrite IH by assumption.
    unfold posted. cbn. rewrite <- app_assoc. reflexivity.
Qed.

(** The same with one load left. *)
Lemma run_progress_one xs w h c :
  loads w !! h = Some (c, Pending) ->
  call_progress_callback c = Some post_progress ->
  run E (Loader_progress h <$> xs) w = posted (republished <$> xs) w.
Proof.
  intros Hl Hc. revert w Hl.
  induction xs as [ | x xs IH]; intros w Hl.
  - destruct w. unfold posted. cbn. rewrite app_nil_r. reflexivity.
  - rewrite fmap_cons, run_cons. cbn [deliver].
    rewrite (loader_progress_post _ x w c Hl Hc).
    rewrite IH by assumption.
    unfold posted. cbn. rewrite <- app_assoc. reflexivity.
Qed.

(** C9. The first load command of a worker posts the loading status,
    then every progress report of the two loads as it is produced and
    unchanged, then the warm-up status; at that point it waits for a
    warm-up generation on the encoding of "a" with a bound of one new
    token, and when that is done it posts ready and returns. A load
    command on a resource that is already there posts the two statuses,
    warms up, and posts ready. *)
Theorem load_event_order c ms ps qs (tok_first : bool) w :
  tokenizer (pipeline w) = None ->
  model (pipeline w) = None ->
  loads w = [] ->
  tasks w = [] ->
  let d := {| type := JSString "load"; data := ms; config := c |} in
  let h1 := if tok_first then 0 else 1 in
  let h2 := if tok_first then 1 else 0 in
  let w3 :=
    run E (Message_event d
           :: (progress_of 0 1 <$> ps) ++ [Loader_settles h1 None]
              ++ (Loader_progress h2 <$> qs) ++ [Loader_settles h2 None]) w in
  let w4 := deliver E (Warmup_done 0) w3 in
  (outbox w3 =
     outbox w ++ [loading_model c] ++ (republished <$> ps.*2 ++ qs) ++ [loading_warmup]
   /\ tasks w3 =
       [load_await_generate
          {| gc_model := 1;
             gc_inputs := Some (tokenizer_call E 0 "a");
             gc_max_new_tokens := 1;
             gc_streamer := None;
             gc_stopping_criteria := false |}]
   /\ outbox w4 = outbox w3 ++ [ready]
   /\ tasks w4 = [returned])
  /\ forall v tok mdl,
       tokenizer (pipeline v) = Some tok ->
       model (pipeline v) = Some mdl ->
       Promise_all v tok mdl = Fulfilled ->
       outbox (run E [Message_event d; Warmup_done (length (tasks v))] v)
       = outbox v ++ [loading_model c; loading_warmup; ready].
Proof.
  intros Ht Hm Hl Hts d h1 h2 w3 w4.
  split.
  - destruct w as [sc [mid t m] l ts r o u]. cbn in Ht, Hm, Hl, Hts. subst t m l ts.
    subst w4 w3. rewrite run_cons. cbn [deliver]. rewrite listener_load by reflexivity.
    unfold load. rewrite getInstance_miss by reflexivity.
    rewrite !run_app.
    erewrite run_progress; [ | reflexivity | reflexivity | reflexivity | reflexivity ].
    destruct tok_first; subst h1 h2.
    + cbn [run foldl deliver app]. unfold loader_settles at 1 3 5 7. cbn.
      erewrite run_progress_one; [ | reflexivity | reflexivity ].
      unfold loader_settles. cbn.
      rewrite fmap_app, <- !app_assoc. repeat split; reflexivity.
    + cbn [run foldl deliver app]. unfold loader_settles at 1 3 5 7. cbn.
      erewrite run_progress_one; [ | reflexivity | reflexivity ].
      unfold loader_settles. cbn.
      rewrite fmap_app, <- !app_assoc. repeat split; reflexivity.
  - intros v tok mdl Hvt Hvm Hall.
    rewrite run_cons. cbn [deliver]. rewrite listener_load by reflexivity.
    unfold load. erewrite getInstance_hit by (cbn; eassumption).
    unfold load_at_getInstance.
    erewrite Promise_all_loads by (cbn; reflexivity). rewrite Hall.
    cbn [run foldl deliver]. unfold warmup_done, load_after_getInstance, spawn. fields.
    rewrite list_lookup_middle by reflexivity.
    unfold load_after_generate. fields. rewrite <- !app_assoc. reflexivity.
Qed.

(** ** No path of the worker reaches the error event *)

Lemma posts_no_error_refl w : posts_no_error w w.
Proof. exists []. split; [rewrite app_nil_r; reflexivity | constructor]. Qed.

Lemma posts_no_error_trans w1 w2 w3 :
  posts_no_error w1 w2 -> posts_no_error w2 w3 -> posts_no_error w1 w3.
Proof.
  intros (es1 & H1 & F1) (es2 & H2 & F2). exists (es1 ++ es2). split.
  - rewrite H2, H1, app_assoc. reflexivity.
  - apply Forall_app. split; assumption.
Qed.

Lemma posts_no_error_same w w' : outbox w' = outbox w -> posts_no_error w w'.
Proof.
  intros H. exists []. split; [rewrite app_nil_r; exact H | constructor].
Qed.

Ltac quiet :=
  first
    [ apply posts_no_error_same; reflexivity
    | eexists; split; [cbn; rewrite <- ?app_assoc; reflexivity | repeat constructor] ].

Lemma load_at_getInstance_quiet tok mdl w :
  posts_no_error w (load_at_getInstance E tok mdl w).2.
Proof.
  unfold load_at_getInstance, load_after_getInstance.
  destruct (Promise_all w tok mdl); quiet.
Qed.

Lemma generate_at_getInstance_quiet ms tok mdl w :
  posts_no_error w (generate_at_getInstance E ms tok mdl w).2.
Proof.
  unfold generate_at_getInstance, generate_after_getInstance.
  destruct (Promise_all w tok mdl); [quiet | | quiet].
  destruct (negb _); quiet.
Qed.

Lemma getInstance_outbox config cb0 w :
  outbox (getInstance config cb0 w).2 = outbox w.
Proof.
  unfold getInstance. cbn.
  destruct (tokenizer (pipeline w)); cbn; destruct (model (pipeline w)); reflexivity.
Qed.

Lemma load_quiet config w : posts_no_error w (load E config w).2.
Proof.
  unfold load.
  pose proof (getInstance_outbox config (Some post_progress)
                (postMessage (loading_model config) w)) as Hg.
  unfold loading_model in Hg.
  destruct (getInstance _ _ _) as [[tok mdl] w1]. cbn [snd] in Hg.
  eapply posts_no_error_trans; [ | apply load_at_getInstance_quiet].
  exists [loading_model config]. split; [exact Hg | repeat constructor].
Qed.

Lemma generate_quiet ms config w : posts_no_error w (generate E ms config w).2.
Proof.
  unfold generate.
  pose proof (getInstance_outbox config None w) as Hg.
  destruct (getInstance _ _ _) as [[tok mdl] w1]. cbn [snd] in Hg.
  eapply posts_no_error_trans; [ | apply generate_at_getInstance_quiet].
  apply posts_no_error_same. exact Hg.
Qed.

Lemma spawn_quiet w r : posts_no_error w r.2 -> posts_no_error w (spawn r).
Proof. intros (es & H & F). exists es. split; [exact H | exact F]. Qed.

Lemma set_task_quiet w i r : posts_no_error w r.2 -> posts_no_error w (set_task i r.1 r.2).
Proof. intros (es & H & F). exists es. split; [exact H | exact F]. Qed.

Lemma listener_quiet d w : posts_no_error w (listener E d w).
Proof.
  unfold listener, try_block.
  repeat (match goal with |- context [if ?b then _ else _] => destruct b end).
  - apply spawn_quiet, load_quiet.
  - apply spawn_quiet.
    eapply posts_no_error_trans; [ | apply generate_quiet]. quiet.
  - quiet.
  - quiet.
  - apply posts_no_error_refl.
Qed.

Lemma wake_task_quiet h i w : posts_no_error w (wake_task E h i w).
Proof.
  unfold wake_task.
  destruct (tasks w !! i) as [[tok mdl | call | ms tok mdl | call tok c | | r] | ];
    try apply posts_no_error_refl.
  - destruct (_ || _); [ | apply posts_no_error_refl].
    apply set_task_quiet, load_at_getInstance_quiet.
  - destruct (_ || _); [ | apply posts_no_error_refl].
    apply set_task_quiet, generate_at_getInstance_quiet.
Qed.

Lemma wake_quiet h w : posts_no_error w (wake E h w).
Proof.
  unfold wake. generalize (seq 0 (length (tasks w))). intros l. revert w.
  induction l as [ | i l IH]; intros w; [apply posts_no_error_refl | ].
  cbn [foldl]. eapply posts_no_error_trans; [apply wake_task_quiet | apply IH].
Qed.

Lemma decode_step_of_quiet i st w : posts_no_error w (decode_step_of E i st w).
Proof.
  unfold decode_step_of.
  destruct (tasks w !! i) as [[tok mdl | call | ms tok mdl | call tok c | | r] | ];
    try apply posts_no_error_refl.
  assert (Hcb : forall f, posts_no_error w (cb E f c w).2).
  { intros f. destruct (cb_frame f c w) as (_ & _ & _ & _ & _ & tps & Ho).
    eexists. split; [exact Ho | repeat constructor]. }
  destruct (gc_streamer call) as [s | ].
  - unfold on_finalized_text. specialize (Hcb (decode E (streamer_tokenizer s)
                                                 (ds_tokens st) (skip_special_tokens s))).
    destruct (cb E _ c w) as [c1 w1]. cbn [snd] in Hcb.
    destruct (forallb _ _).
    + eapply posts_no_error_trans; [exact Hcb | quiet].
    + eapply posts_no_error_trans; [exact Hcb | quiet].
  - destruct (forallb _ _); quiet.
Qed.

(** Whatever happens, the worker posts no error event. *)
Lemma deliver_quiet o w : posts_no_error w (deliver E o w).
Proof.
  destruct o as [d | h x | h r | i | i reason | i st]; cbn [deliver].
  - apply listener_quiet.
  - unfold loader_progress.
    destruct (loads w !! h) as [[c [ | | r]] | ]; try apply posts_no_error_refl.
    destruct (call_progress_callback c) as [[] | ]; [quiet | apply posts_no_error_refl].
  - unfold loader_settles.
    destruct (loads w !! h) as [[c [ | | r0]] | ] eqn:Hl; try apply posts_no_error_refl.
    eapply posts_no_error_trans; [ | apply wake_quiet].
    unfold settle. rewrite Hl. quiet.
  - unfold warmup_done.
    destruct (tasks w !! i) as [[tok mdl | call | ms tok mdl | call tok c | | r] | ];
      try apply posts_no_error_refl.
    quiet.
  - unfold engine_rejects.
    destruct (tasks w !! i) as [[tok mdl | call | ms tok mdl | call tok c | | r] | ];
      try apply posts_no_error_refl; quiet.
  - apply decode_step_of_quiet.
Qed.

Lemma run_quiet os w : posts_no_error w (run E os w).
Proof.
  revert w. induction os as [ | o os IH]; intros w; [apply posts_no_error_refl | ].
  rewrite run_cons. eapply posts_no_error_trans; [apply deliver_quiet | apply IH].
Qed.

End Properties.

(** * Concrete runs *)

Import Stub.

(** The scenarios of the specification, run on the stub engine. *)

Example scenario_load :
  outbox (run engine
            [Message_event (msg "load" [] cfg);
             Loader_progress 0 (info "initiate" "A");
             Loader_progress 0 (info "progress" "A");
             Loader_progress 0 (info "done" "A");
             Loader_settles 0 None;
             Loader_progress 1 (info "initiate" "B");
             Loader_progress 1 (info "progress" "B");
             Loader_progress 1 (info "done" "B");
             Loader_settles 1 None;
             Warmup_done 0] fresh)
  = [loading_model cfg;
     republished (info "initiate" "A"); republished (info "progress" "A");
     republished (info "done" "A");
     republished (info "initiate" "B"); republished (info "progress" "B");
     republished (info "done" "B");
     loading_warmup; ready].
Proof. vm_compute. reflexivity. Qed.

Example scenario_two_loads :
  let w := run engine
             [Message_event (msg "load" [] cfg);
              Message_event (msg "load" [] cfg2);
              Loader_progress 0 (info "initiate" "A");
              Loader_settles 0 None; Loader_settles 1 None;
              Warmup_done 0; Warmup_done 1] fresh in
  outbox w
  = [loading_model cfg; loading_model cfg2;
     republished (info "initiate" "A");
     loading_warmup; loading_warmup; ready; ready]
  /\ length (loads w) = 2.
Proof. vm_compute. split; reflexivity. Qed.

Example scenario_generate :
  outbox (run engine
            [Message_event (msg "generate" hi cfg);
             Decode_step 1 step1;
             Decode_step 1 {| ds_tokens := [2%Z]; ds_rows := [([7; 1; 2]%Z, true)] |}]
            loaded)
  = outbox loaded
    ++ [start; update "Hel" None 1; update "lo" (Some 8%float) 2;
        complete ["hi:Hello"]].
Proof. vm_compute. reflexivity. Qed.

Example scenario_interrupt :
  outbox (run engine
            [Message_event (msg "generate" hi cfg);
             Message_event (msg "interrupt" [] cfg);
             Decode_step 1 step1; Decode_step 1 step2; Decode_step 1 step3]
            loaded)
  = outbox loaded
    ++ [start; update "Hel" None 1; update "lo" (Some 8%float) 2;
        update EmptyString (Some 6%float) 3; complete ["hi:Hello<eos>"]].
Proof. vm_compute. reflexivity. Qed.

(** C1. The check of the stopping criteria does answer, for a batch of
    n sequences, n copies of the flag, and an interrupt command puts
    the flag up; but the class is a list of criteria, the engine merges
    a list by the criteria it holds, and this list holds none, so the
    check is never asked. With the flag up, a step at which the
    engine's own criteria do not hold leaves the session in the loop:
    it posts the fragment of that step and no complete event. On the
    stub engine the session interrupted after its first fragment posts
    its second fragment and stays in the loop, and it ends only where
    the engine ends it, at the end-of-sequence token. *)
Theorem interrupt_does_not_stop_the_loop :
  (forall sc ids, _call sc ids = replicate (length ids) (interrupted sc))
  /\ (forall E d w i call tok c s st,
        type d = JSString "interrupt" ->
        tasks w !! i = Some (generate_await_generate call tok c) ->
        gc_streamer call = Some s ->
        gc_stopping_criteria call = true ->
        engine_done st = false ->
        let w1 := deliver E (Message_event d) w in
        let w2 := deliver E (Decode_step i st) w1 in
        interrupted (stopping_criteria w1) = true
        /\ (forall ids, _call (stopping_criteria w1) ids = replicate (length ids) true)
        /\ interrupted (stopping_criteria w2) = true
        /\ tasks w2 !! i =
             Some (generate_await_generate call tok (cb E (fragment_of E s st) c w1).1)
        /\ (exists tps,
              outbox w2 = outbox w ++ [update (fragment_of E s st) tps (numTokens c + 1)]))
  /\ (let w := run engine [Message_event (msg "interrupt" [] cfg); Decode_step 1 step2]
                 decoding in
      engine_done step2 = false
      /\ interrupted (stopping_criteria w) = true
      /\ outbox w = outbox loaded ++ [start; update "Hel" None 1; update "lo" (Some 8%float) 2]
      /\ filter (fun e => is_complete e = true) (outbox w) = []
      /\ tasks w !! 1 =
           Some (generate_await_generate
                   {| gc_model := 1;
                      gc_inputs := Some encoding;
                      gc_max_new_tokens := 512;
                      gc_streamer := Some (new_CallbackTextStreamer 0);
                      gc_stopping_criteria := true |}
                   0 {| startTime := Some (timer 0); numTokens := 2 |})
      /\ outbox (deliver engine (Decode_step 1 step3) w)
         = outbox w ++ [update EmptyString (Some 6%float) 3; complete ["hi:Hello<eos>"]]).
Proof.
  split; [reflexivity | ].
  split; [exact interrupted_session_goes_on | ].
  vm_compute. repeat split; reflexivity.
Qed.

(** C2. All over the worker no error event is ever posted: whatever
    happens to it, the events it posts are not error events. A
    generation whose engine call is rejected after the first fragment
    ends with a start and an update event and an unhandled rejection,
    with neither a complete nor an error event; a load whose tokenizer
    fails to download ends with the loading status alone. *)
Theorem rejections_are_never_reported :
  (forall E os w, posts_no_error w (run E os w))
  /\ (let w := deliver engine (Engine_rejects 1 "device lost") decoding in
      outbox w = outbox loaded ++ [start; update "Hel" None 1]
      /\ tasks w !! 1 = Some (rejected "device lost")
      /\ unhandled w = ["device lost"]
      /\ filter (fun e => is_complete e = true) (outbox w) = []
      /\ filter (fun e => is_error e = true) (outbox w) = [])
  /\ outbox failed = [loading_model cfg]
  /\ tasks failed = [rejected "network failure"]
  /\ unhandled failed = ["network failure"].
Proof.
  split; [exact run_quiet | ].
  vm_compute. repeat split; reflexivity.
Qed.

(** C4 fails as stated: after a load for one Config, an acquire for a
    different Config starts no load and returns the promises of the
    first one; no resource is ever created for the second Config, whose
    model is "N" while both cached artifacts are those of "M". *)
Lemma second_config_gets_first_resource :
  cfg <> cfg2
  /\ (getInstance cfg2 None loaded).1 = (0, 1)
  /\ loads (getInstance cfg2 None loaded).2 = loads loaded
  /\ (fun c => call_model_id c.1) <$> loads (getInstance cfg2 None loaded).2 = ["M"; "M"]
  /\ modelName cfg2 = "N"
  /\ model_id (pipeline (getInstance cfg2 None loaded).2) = Some "N".
Proof.
  split; [discriminate | ].
  vm_compute. repeat split; reflexivity.
Qed.

(** C5 fails as stated: after the tokenizer failed to load, a second
    load command with the same Config posts no error event, starts no
    load (the loader has seen the same two calls as before), and ends
    with the rejection of the first attempt. *)
Lemma failed_load_is_not_retried :
  let w := deliver engine (Message_event (msg "load" [] cfg)) failed in
  filter (fun e => is_error e = true) (outbox w) = []
  /\ outbox w = [loading_model cfg; loading_model cfg]
  /\ length (loads w) = length (loads failed)
  /\ length (loads w) = 2
  /\ promise_state w 0 = Rejected "network failure"
  /\ tasks w = [rejected "network failure"; rejected "network failure"].
Proof. vm_compute. repeat split; reflexivity. Qed.

(** ** The theorems at concrete inputs *)

Lemma unknown_command_ignored_witness :
  type (msg "ping" [] cfg) <> JSString "load"
  /\ type (msg "ping" [] cfg) <> JSString "generate"
  /\ type (msg "ping" [] cfg) <> JSString "interrupt"
  /\ type (msg "ping" [] cfg) <> JSString "reset"
  /\ deliver engine (Message_event (msg "ping" [] cfg)) decoding = decoding.
Proof.
  assert (h1 : type (msg "ping" [] cfg) <> JSString "load") by discriminate.
  assert (h2 : type (msg "ping" [] cfg) <> JSString "generate") by discriminate.
  assert (h3 : type (msg "ping" [] cfg) <> JSString "interrupt") by discriminate.
  assert (h4 : type (msg "ping" [] cfg) <> JSString "reset") by discriminate.
  exact (conj h1 (conj h2 (conj h3 (conj h4
           (unknown_command_ignored engine (msg "ping" [] cfg) decoding h1 h2 h3 h4))))).
Defined.

Lemma generate_without_object_is_silent_witness :
  type (msg "generate" [] cfg) = JSString "generate"
  /\ tokenizer (pipeline loaded) = Some 0
  /\ model (pipeline loaded) = Some 1
  /\ Promise_all loaded 0 1 = Fulfilled
  /\ js_typeof (apply_chat_template engine 0 (data (msg "generate" [] cfg))) <> "object"
  /\ outbox (deliver engine (Message_event (msg "generate" [] cfg)) loaded)
     = outbox loaded.
Proof.
  assert (h1 : type (msg "generate" [] cfg) = JSString "generate") by reflexivity.
  assert (h2 : tokenizer (pipeline loaded) = Some 0) by (vm_compute; reflexivity).
  assert (h3 : model (pipeline loaded) = Some 1) by (vm_compute; reflexivity).
  assert (h4 : Promise_all loaded 0 1 = Fulfilled) by (vm_compute; reflexivity).
  assert (h5 : js_typeof (apply_chat_template engine 0 (data (msg "generate" [] cfg)))
               <> "object") by discriminate.
  exact (conj h1 (conj h2 (conj h3 (conj h4 (conj h5
           (proj1 (proj2 (generate_without_object_is_silent
                            engine (msg "generate" [] cfg) loaded 0 1
                            h1 h2 h3 h4 h5)))))))).
Defined.

Lemma getInstance_is_one_slot_witness :
  tokenizer (pipeline fresh) = None
  /\ model (pipeline fresh) = None
  /\ (getInstance cfg2 (Some post_progress) (getInstance cfg None fresh).2).1
     = (getInstance cfg None fresh).1.
Proof.
  assert (h1 : tokenizer (pipeline fresh) = None) by reflexivity.
  assert (h2 : model (pipeline fresh) = None) by reflexivity.
  exact (conj h1 (conj h2
           (proj1 (proj2 (getInstance_is_one_slot cfg None fresh h1 h2)
                     cfg2 (Some post_progress) (getInstance cfg None fresh).2
                     eq_refl eq_refl)))).
Defined.

Lemma load_after_failure_keeps_rejection_witness :
  type (msg "load" [] cfg) = JSString "load"
  /\ tokenizer (pipeline failed) = Some 0
  /\ model (pipeline failed) = Some 1
  /\ Promise_all failed 0 1 = Rejected "network failure"
  /\ loads (deliver engine (Message_event (msg "load" [] cfg)) failed) = loads failed.
Proof.
  assert (h1 : type (msg "load" [] cfg) = JSString "load") by reflexivity.
  assert (h2 : tokenizer (pipeline failed) = Some 0) by (vm_compute; reflexivity).
  assert (h3 : model (pipeline failed) = Some 1) by (vm_compute; reflexivity).
  assert (h4 : Promise_all failed 0 1 = Rejected "network failure")
    by (vm_compute; reflexivity).
  exact (conj h1 (conj h2 (conj h3 (conj h4
           (proj1 (load_after_failure_keeps_rejection
                     engine (msg "load" [] cfg) failed 0 1 "network failure"
                     h1 h2 h3 h4)))))).
Defined.

Lemma aggregator_counts_and_rates_witness :
  ["Hel"; "lo"] !! 1 = Some "lo"
  /\ exists tps,
       UpdateEvents engine (clock_reads fresh) ["Hel"; "lo"] !! 1
       = Some (update "lo" tps (Z.of_nat 2))
       /\ (tps = None <-> 2 = 1)
       /\ (1 < 2 ->
           tps = Some (number_of_count (Z.of_nat 2)
                       / (performance_now engine (clock_reads fresh + 1)
                          - performance_now engine (clock_reads fresh))
                       * 1000)%float).
Proof.
  assert (h1 : ["Hel"; "lo"] !! 1 = Some "lo") by reflexivity.
  exact (conj h1
           (proj2 (proj2 (proj2 (aggregator_counts_and_rates engine ["Hel"; "lo"] fresh)))
              1 "lo" h1)).
Defined.

Lemma generate_event_order_witness :
  type (msg "generate" hi cfg) = JSString "generate"
  /\ Forall (fun st => engine_done st = false) [step1; step2]
  /\ engine_done step3 = true
  /\ tokenizer (pipeline loaded) = Some 0
  /\ model (pipeline loaded) = Some 1
  /\ Promise_all loaded 0 1 = Fulfilled
  /\ js_typeof (apply_chat_template engine 0 (data (msg "generate" hi cfg))) = "object"
  /\ tasks (run engine
              (Message_event (msg "generate" hi cfg)
               :: (Decode_step (length (tasks loaded)) <$> [step1; step2] ++ [step3]))
              loaded) !! length (tasks loaded)
     = Some returned.
Proof.
  assert (h1 : type (msg "generate" hi cfg) = JSString "generate") by reflexivity.
  assert (h2 : Forall (fun st => engine_done st = false) [step1; step2])
    by (repeat constructor).
  assert (h3 : engine_done step3 = true) by reflexivity.
  assert (h4 : tokenizer (pipeline loaded) = Some 0) by (vm_compute; reflexivity).
  assert (h5 : model (pipeline loaded) = Some 1) by (vm_compute; reflexivity).
  assert (h6 : Promise_all loaded 0 1 = Fulfilled) by (vm_compute; reflexivity).
  assert (h7 : js_typeof (apply_chat_template engine 0 (data (msg "generate" hi cfg)))
               = "object") by reflexivity.
  exact (conj h1 (conj h2 (conj h3 (conj h4 (conj h5 (conj h6 (conj h7
           (proj1 (proj2 (proj1 (generate_event_order
                                   engine (msg "generate" hi cfg)
                                   [step1; step2] step3 h1 h2 h3)
                            loaded 0 1 h4 h5 h6 h7)))))))))).
Defined.

Lemma load_event_order_witness :
  tokenizer (pipeline fresh) = None
  /\ model (pipeline fresh) = None
  /\ loads fresh = []
  /\ tasks fresh = []
  /\ tasks (deliver engine (Warmup_done 0)
             (run engine
                (Message_event {| type := JSString "load"; data := []; config := cfg |}
                 :: (progress_of 0 1 <$> [(true, info "initiate" "A");
                                           (false, info "initiate" "B")])
                    ++ [Loader_settles 0 None]
                    ++ (Loader_progress 1 <$> [info "done" "B"])
                    ++ [Loader_settles 1 None]) fresh))
     = [returned].
Proof.
  assert (h1 : tokenizer (pipeline fresh) = None) by reflexivity.
  assert (h2 : model (pipeline fresh) = None) by reflexivity.
  assert (h3 : loads fresh = []) by reflexivity.
  assert (h4 : tasks fresh = []) by reflexivity.
  exact (conj h1 (conj h2 (conj h3 (conj h4
           (proj2 (proj2 (proj2 (proj1
              (load_event_order engine cfg []
                 [(true, info "initiate" "A"); (false, info "initiate" "B")]
                 [info "done" "B"] true fresh h1 h2 h3 h4))))))))).
Defined.

(** * More properties of the worker *)

Section Worker_life.

Variable E : External.

(** ** What each part of the worker leaves alone *)

Lemma kept_refl w : kept w w.
Proof. repeat split; reflexivity. Qed.

Lemma kept_trans w1 w2 w3 : kept w1 w2 -> kept w2 w3 -> kept w1 w3.
Proof.
  intros (A1 & B1 & C1) (A2 & B2 & C2).
  repeat split; [rewrite A2 | rewrite B2 | rewrite C2]; assumption.
Qed.

Lemma kept_Promise_all w w' tok mdl :
  kept w w' -> Promise_all w' tok mdl = Promise_all w tok mdl.
Proof. intros (_ & _ & Hl). apply Promise_all_loads. exact Hl. Qed.

Lemma load_at_getInstance_kept tok mdl w :
  kept w (load_at_getInstance E tok mdl w).2.
Proof.
  unfold load_at_getInstance, load_after_getInstance.
  destruct (Promise_all w tok mdl); repeat split; reflexivity.
Qed.

Lemma generate_at_getInstance_kept ms tok mdl w :
  kept w (generate_at_getInstance E ms tok mdl w).2.
Proof.
  unfold generate_at_getInstance, generate_after_getInstance.
  destruct (Promise_all w tok mdl); [ | | ]; try (repeat split; reflexivity).
  destruct (negb _); repeat split; reflexivity.
Qed.

Lemma set_task_kept w i r : kept w r.2 -> kept w (set_task i r.1 r.2).
Proof. intros H. exact H. Qed.

Lemma wake_task_kept h i w : kept w (wake_task E h i w).
Proof.
  unfold wake_task.
  destruct (tasks w !! i) as [[tok mdl | call | ms tok mdl | call tok c | | r] | ];
    try apply kept_refl.
  - destruct (_ || _); [ | apply kept_refl].
    apply set_task_kept, load_at_getInstance_kept.
  - destruct (_ || _); [ | apply kept_refl].
    apply set_task_kept, generate_at_getInstance_kept.
Qed.

Lemma wake_kept h w : kept w (wake E h w).
Proof.
  unfold wake. generalize (seq 0 (length (tasks w))). intros l. revert w.
  induction l as [ | i l IH]; intros w; [apply kept_refl | ].
  cbn [foldl]. eapply kept_trans; [apply wake_task_kept | apply IH].
Qed.

Lemma decode_step_of_kept i st w : kept w (decode_step_of E i st w).
Proof.
  unfold decode_step_of.
  destruct (tasks w !! i) as [[tok mdl | call | ms tok mdl | call tok c | | r] | ];
    try apply kept_refl.
  assert (Hcb : forall f, kept w (cb E f c w).2).
  { intros f. destruct (cb_frame E f c w) as (A & B & C & _).
    repeat split; assumption. }
  destruct (gc_streamer call) as [s | ].
  - unfold on_finalized_text.
    specialize (Hcb (decode E (streamer_tokenizer s) (ds_tokens st)
                       (skip_special_tokens s))).
    destruct (cb E _ c w) as [c1 w1]. cbn [snd] in Hcb.
    destruct Hcb as (A & B & C).
    destruct (forallb _ _); unfold kept, generate_after_generate; cbn; auto.
  - destruct (forallb _ _); unfold kept, generate_after_generate; cbn; auto.
Qed.

(** Everything that is not a message leaves the flag and the pipeline
    alone; only a settling promise touches the loader log, and only the
    state of the promise that settles. *)
Lemma deliver_kept o w :
  match o with
  | Message_event _ | Loader_settles _ _ => True
  | _ => kept w (deliver E o w)
  end.
Proof.
  destruct o as [d | h x | h r | i | i reason | i st]; cbn [deliver]; try exact I.
  - unfold loader_progress.
    destruct (loads w !! h) as [[c [ | | r]] | ]; try apply kept_refl.
    destruct (call_progress_callback c) as [[] | ]; repeat split; reflexivity.
  - unfold warmup_done.
    destruct (tasks w !! i) as [[tok mdl | call | ms tok mdl | call tok c | | r] | ];
      repeat split; reflexivity.
  - unfold engine_rejects.
    destruct (tasks w !! i) as [[tok mdl | call | ms tok mdl | call tok c | | r] | ];
      repeat split; reflexivity.
  - apply decode_step_of_kept.
Qed.

Lemma loader_settles_flag_pipeline h r w :
  stopping_criteria (loader_settles E h r w) = stopping_criteria w
  /\ pipeline (loader_settles E h r w) = pipeline w
  /\ (loads (loader_settles E h r w)).*1 = (loads w).*1
  /\ length (loads (loader_settles E h r w)) = length (loads w).
Proof.
  unfold loader_settles.
  destruct (loads w !! h) as [[c [ | | r0]] | ] eqn:Hl;
    try (repeat split; reflexivity).
  destruct (wake_kept h (settle h r w)) as (A & B & C).
  rewrite A, B, C. unfold settle. rewrite Hl. cbn.
  repeat split.
  - rewrite list_fmap_insert. cbn. apply list_insert_id.
    rewrite list_lookup_fmap, Hl. reflexivity.
  - apply length_insert.
Qed.

Lemma load_kept_flag config w :
  stopping_criteria (load E config w).2 = stopping_criteria w.
Proof.
  unfold load.
  pose proof (getInstance_stopping_criteria config (Some post_progress)
                (postMessage (loading_model config) w)) as Hg.
  unfold loading_model in Hg.
  destruct (getInstance _ _ _) as [[tok mdl] w1]. cbn [snd] in Hg.
  destruct (load_at_getInstance_kept tok mdl w1) as (A & _).
  rewrite A. exact Hg.
Qed.

Lemma deliver_flag o w :
  interrupted (stopping_criteria (deliver E o w))
  = flag_after (interrupted (stopping_criteria w)) o.
Proof.
  destruct o as [d | h x | h r | i | i reason | i st].
  - cbn [deliver flag_after]. unfold listener, try_block.
    destruct (strict_eq_string (type d) "load").
    { unfold spawn. cbn. rewrite load_kept_flag. reflexivity. }
    destruct (strict_eq_string (type d) "generate").
    { unfold spawn. cbn. rewrite generate_stopping_criteria. reflexivity. }
    destruct (strict_eq_string (type d) "interrupt"); [reflexivity | ].
    destruct (strict_eq_string (type d) "reset"); reflexivity.
  - destruct (deliver_kept (Loader_progress h x) w) as (A & _). rewrite A. reflexivity.
  - destruct (loader_settles_flag_pipeline h r w) as (A & _).
    cbn [deliver flag_after]. rewrite A. reflexivity.
  - destruct (deliver_kept (Warmup_done i) w) as (A & _). rewrite A. reflexivity.
  - destruct (deliver_kept (Engine_rejects i reason) w) as (A & _). rewrite A. reflexivity.
  - destruct (deliver_kept (Decode_step i st) w) as (A & _). rewrite A. reflexivity.
Qed.

(** X1. After any sequence of occurrences the interrupt flag is
    what the message types alone make it: a generate or reset message
    puts it down, an interrupt message puts it up, and nothing else
    (a load message, an unknown message, the loader, the engine, a
    finished or failed task) ever changes it. *)
Theorem flag_follows_messages os w :
  interrupted (stopping_criteria (run E os w))
  = foldl flag_after (interrupted (stopping_criteria w)) os.
Proof.
  revert w. induction os as [ | o os IH]; intros w; [reflexivity | ].
  rewrite run_cons, IH. cbn [foldl]. f_equal. apply deliver_flag.
Qed.

(** ** A settled promise stays as it is *)

Lemma promise_state_grow w w' l h :
  loads w' = loads w ++ l ->
  promise_state w h <> Pending ->
  promise_state w' h = promise_state w h.
Proof.
  intros Hl. unfold promise_state. rewrite Hl.
  destruct (loads w !! h) as [[c s] | ] eqn:Hh; [ | congruence].
  intros _. rewrite (lookup_app_l_Some _ _ _ _ Hh). reflexivity.
Qed.

Lemma promise_state_loads w w' h :
  loads w' = loads w -> promise_state w' h = promise_state w h.
Proof. intros H. unfold promise_state. rewrite H. reflexivity. Qed.

Lemma getInstance_promise_state config cb0 w h :
  promise_state w h <> Pending ->
  promise_state (getInstance config cb0 w).2 h = promise_state w h.
Proof.
  intros Hh. unfold getInstance, from_pretrained. cbn.
  destruct (tokenizer (pipeline w)); cbn; destruct (model (pipeline w)); cbn.
  - apply promise_state_loads. reflexivity.
  - eapply promise_state_grow; [cbn; reflexivity | exact Hh].
  - eapply promise_state_grow; [cbn; reflexivity | exact Hh].
  - eapply promise_state_grow; [cbn; rewrite <- app_assoc; reflexivity | exact Hh].
Qed.

Lemma deliver_promise_state o w h :
  promise_state w h <> Pending ->
  promise_state (deliver E o w) h = promise_state w h.
Proof.
  intros Hh. destruct o as [d | h' x | h' r | i | i reason | i st].
  - cbn [deliver]. unfold listener, try_block.
    destruct (strict_eq_string (type d) "load").
    { unfold spawn, load.
      pose proof (getInstance_promise_state (config d) (Some post_progress)
                    (postMessage (loading_model (config d)) w) h Hh) as Hg.
      unfold loading_model in Hg.
      destruct (getInstance _ _ _) as [[tok mdl] w1]. cbn [snd] in Hg.
      destruct (load_at_getInstance_kept tok mdl w1) as (_ & _ & C).
      transitivity (promise_state w1 h);
        [apply promise_state_loads; cbn; exact C | exact Hg]. }
    destruct (strict_eq_string (type d) "generate").
    { unfold spawn, generate.
      pose proof (getInstance_promise_state (config d) None
                    (set_stopping_criteria (reset (stopping_criteria w)) w) h Hh) as Hg.
      destruct (getInstance _ _ _) as [[tok mdl] w1]. cbn [snd] in Hg.
      destruct (generate_at_getInstance_kept (data d) tok mdl w1) as (_ & _ & C).
      transitivity (promise_state w1 h);
        [apply promise_state_loads; cbn; exact C | exact Hg]. }
    destruct (strict_eq_string (type d) "interrupt"); [reflexivity | ].
    destruct (strict_eq_string (type d) "reset"); reflexivity.
  - destruct (deliver_kept (Loader_progress h' x) w) as (_ & _ & C).
    apply promise_state_loads, C.
  - cbn [deliver]. unfold loader_settles.
    destruct (loads w !! h') as [[c [ | | r0]] | ] eqn:Hl; try reflexivity.
    destruct (wake_kept h' (settle h' r w)) as (_ & _ & C).
    rewrite (promise_state_loads _ _ h C).
    unfold settle. rewrite Hl. unfold promise_state. cbn.
    destruct (decide (h' = h)) as [-> | Hne].
    + exfalso. apply Hh. unfold promise_state. rewrite Hl. reflexivity.
    + rewrite list_lookup_insert_ne by exact Hne. reflexivity.
  - destruct (deliver_kept (Warmup_done i) w) as (_ & _ & C).
    apply promise_state_loads, C.
  - destruct (deliver_kept (Engine_rejects i reason) w) as (_ & _ & C).
    apply promise_state_loads, C.
  - destruct (deliver_kept (Decode_step i st) w) as (_ & _ & C).
    apply promise_state_loads, C.
Qed.

(** ** Sessions and the shared flag *)

Ltac read_fields :=
  cbn [stopping_criteria pipeline loads tasks clock_reads outbox unhandled
       set_task set_tasks set_loads set_pipeline set_stopping_criteria
       set_clock_reads postMessage unhandled_rejection spawn fst snd].





(** ** Progress reports reach the host through one callback only *)

Lemma posts_own_refl w : posts_own w w.
Proof. exists []. split; [rewrite app_nil_r; reflexivity | constructor]. Qed.

Lemma posts_own_trans w1 w2 w3 : posts_own w1 w2 -> posts_own w2 w3 -> posts_own w1 w3.
Proof.
  intros (es1 & H1 & F1) (es2 & H2 & F2). exists (es1 ++ es2). split.
  - rewrite H2, H1, app_assoc. reflexivity.
  - apply Forall_app. split; assumption.
Qed.

Lemma posts_own_same w w' : outbox w' = outbox w -> posts_own w w'.
Proof. intros H. exists []. split; [rewrite app_nil_r; exact H | constructor]. Qed.

Ltac own :=
  first
    [ apply posts_own_same; reflexivity
    | eexists; split; [cbn; rewrite <- ?app_assoc; reflexivity | repeat constructor] ].

Lemma load_at_getInstance_own tok mdl w : posts_own w (load_at_getInstance E tok mdl w).2.
Proof.
  unfold load_at_getInstance, load_after_getInstance.
  destruct (Promise_all w tok mdl); own.
Qed.

Lemma generate_at_getInstance_own ms tok mdl w :
  posts_own w (generate_at_getInstance E ms tok mdl w).2.
Proof.
  unfold generate_at_getInstance, generate_after_getInstance.
  destruct (Promise_all w tok mdl); [own | | own].
  destruct (negb _); own.
Qed.

Lemma load_own config w : posts_own w (load E config w).2.
Proof.
  unfold load.
  pose proof (getInstance_outbox config (Some post_progress)
                (postMessage (loading_model config) w)) as Hg.
  unfold loading_model in Hg.
  destruct (getInstance _ _ _) as [[tok mdl] w1]. cbn [snd] in Hg.
  eapply posts_own_trans; [ | apply load_at_getInstance_own].
  exists [loading_model config]. split; [exact Hg | repeat constructor].
Qed.

Lemma generate_own ms config w : posts_own w (generate E ms config w).2.
Proof.
  unfold generate.
  pose proof (getInstance_outbox config None w) as Hg.
  destruct (getInstance _ _ _) as [[tok mdl] w1]. cbn [snd] in Hg.
  eapply posts_own_trans; [ | apply generate_at_getInstance_own].
  apply posts_own_same. exact Hg.
Qed.

Lemma listener_own d w : posts_own w (listener E d w).
Proof.
  unfold listener, try_block.
  repeat (match goal with |- context [if ?b then _ else _] => destruct b end).
  - destruct (load_own (config d) w) as (es & H & F). exists es. split; assumption.
  - destruct (generate_own (data d) (config d)
                (set_stopping_criteria (reset (stopping_criteria w)) w))
      as (es & H & F).
    exists es. split; assumption.
  - own.
  - own.
  - apply posts_own_refl.
Qed.

Lemma wake_task_own h i w : posts_own w (wake_task E h i w).
Proof.
  unfold wake_task.
  destruct (tasks w !! i) as [[tok mdl | call | ms tok mdl | call tok c | | r] | ];
    try apply posts_own_refl.
  - destruct (_ || _); [ | apply posts_own_refl].
    destruct (load_at_getInstance_own tok mdl w) as (es & H & F).
    exists es. split; assumption.
  - destruct (_ || _); [ | apply posts_own_refl].
    destruct (generate_at_getInstance_own ms tok mdl w) as (es & H & F).
    exists es. split; assumption.
Qed.

Lemma wake_own h w : posts_own w (wake E h w).
Proof.
  unfold wake. generalize (seq 0 (length (tasks w))). intros l. revert w.
  induction l as [ | i l IH]; intros w; [apply posts_own_refl | ].
  cbn [foldl]. eapply posts_own_trans; [apply wake_task_own | apply IH].
Qed.

Lemma decode_step_of_own i st w : posts_own w (decode_step_of E i st w).
Proof.
  unfold decode_step_of.
  destruct (tasks w !! i) as [[tok mdl | call | ms tok mdl | call tok c | | r] | ];
    try apply posts_own_refl.
  assert (Hcb : forall f, posts_own w (cb E f c w).2).
  { intros f. destruct (cb_frame E f c w) as (_ & _ & _ & _ & _ & tps & Ho).
    eexists. split; [exact Ho | repeat constructor]. }
  destruct (gc_streamer call) as [s | ].
  - unfold on_finalized_text.
    specialize (Hcb (decode E (streamer_tokenizer s) (ds_tokens st)
                       (skip_special_tokens s))).
    destruct (cb E _ c w) as [c1 w1]. cbn [snd] in Hcb.
    destruct (forallb _ _); (eapply posts_own_trans; [exact Hcb | own]).
  - destruct (forallb _ _); own.
Qed.

Lemma kept_acquired_without_callback w w' :
  kept w w' -> acquired_without_callback w -> acquired_without_callback w'.
Proof.
  intros (_ & Hp & Hl) (A & B & C). unfold acquired_without_callback, no_callback.
  rewrite Hp, Hl. repeat split; assumption.
Qed.

Lemma getInstance_acquired_without_callback config cb0 w :
  acquired_without_callback w -> acquired_without_callback (getInstance config cb0 w).2.
Proof.
  intros (A & (t & B) & (m & C)). rewrite (getInstance_hit config cb0 w t m B C).
  unfold acquired_without_callback, no_callback. cbn. eauto.
Qed.

(** With the resource acquired without a callback, whatever happens
    next posts events of the worker's own making only. *)
Lemma deliver_without_callback o w :
  acquired_without_callback w ->
  acquired_without_callback (deliver E o w) /\ posts_own w (deliver E o w).
Proof.
  intros H. destruct o as [d | h x | h r | i | i reason | i st].
  - split; [ | apply listener_own].
    cbn [deliver]. unfold listener, try_block.
    destruct (strict_eq_string (type d) "load").
    { unfold spawn, load.
      assert (H1 : acquired_without_callback (postMessage (loading_model (config d)) w))
        by exact H.
      apply (getInstance_acquired_without_callback (config d) (Some post_progress)) in H1.
      unfold loading_model in H1.
      destruct (getInstance _ _ _) as [[tok mdl] w1]. cbn [snd] in H1.
      exact (kept_acquired_without_callback _ _ (load_at_getInstance_kept tok mdl w1) H1). }
    destruct (strict_eq_string (type d) "generate").
    { unfold spawn, generate.
      assert (H1 : acquired_without_callback
                     (set_stopping_criteria (reset (stopping_criteria w)) w))
        by exact H.
      apply (getInstance_acquired_without_callback (config d) None) in H1.
      destruct (getInstance _ _ _) as [[tok mdl] w1]. cbn [snd] in H1.
      exact (kept_acquired_without_callback _ _
               (generate_at_getInstance_kept (data d) tok mdl w1) H1). }
    destruct (strict_eq_string (type d) "interrupt"); [exact H | ].
    destruct (strict_eq_string (type d) "reset"); exact H.
  - cbn [deliver]. unfold loader_progress.
    destruct H as (A & B & C).
    destruct (loads w !! h) as [[c [ | | r]] | ] eqn:Hl;
      try (split; [repeat split; assumption | apply posts_own_refl]).
    assert (Hc : call_progress_callback c = None).
    { unfold no_callback in A. rewrite Forall_lookup in A. exact (A h _ Hl). }
    rewrite Hc. split; [repeat split; assumption | apply posts_own_refl].
  - cbn [deliver]. split.
    + destruct (loader_settles_flag_pipeline h r w) as (_ & Hp & Hl & _).
      destruct H as (A & B & C). unfold acquired_without_callback, no_callback.
      rewrite Hp. repeat split; try assumption.
      unfold no_callback in A.
      apply (Forall_fmap fst (fun c => call_progress_callback c = None)).
      rewrite Hl. apply (Forall_fmap fst (fun c => call_progress_callback c = None)).
      exact A.
    + unfold loader_settles.
      destruct (loads w !! h) as [[c [ | | r0]] | ] eqn:Hl; try apply posts_own_refl.
      eapply posts_own_trans; [ | apply wake_own].
      unfold settle. rewrite Hl. own.
  - split; [exact (kept_acquired_without_callback _ _ (deliver_kept (Warmup_done i) w) H) | ].
    cbn [deliver]. unfold warmup_done.
    destruct (tasks w !! i) as [[tok mdl | call | ms tok mdl | call tok c | | r] | ];
      try apply posts_own_refl.
    own.
  - split; [exact (kept_acquired_without_callback _ _
                     (deliver_kept (Engine_rejects i reason) w) H) | ].
    cbn [deliver]. unfold engine_rejects.
    destruct (tasks w !! i) as [[tok mdl | call | ms tok mdl | call tok c | | r] | ];
      try apply posts_own_refl; own.
  - split; [exact (kept_acquired_without_callback _ _
                     (deliver_kept (Decode_step i st) w) H) | ].
    apply decode_step_of_own.
Qed.

Lemma run_without_callback os w :
  acquired_without_callback w -> posts_own w (run E os w).
Proof.
  revert w. induction os as [ | o os IH]; intros w H; [apply posts_own_refl | ].
  rewrite run_cons. destruct (deliver_without_callback o w H) as (H1 & H2).
  eapply posts_own_trans; [exact H2 | apply IH, H1].
Qed.

(** X6. When the resource is first asked for by a generate
    command (which passes no progress callback), no progress report is
    ever republished, whatever follows: the loads belong to that first
    request, and a later load command cannot attach its callback any
    more. Everything the worker posts from then on is a loading, ready,
    start, update or complete event. *)
Theorem generate_first_silences_progress d os w :
  type d = JSString "generate" ->
  no_callback w ->
  posts_own w (run E (Message_event d :: os) w).
Proof.
  intros Hty Hn. rewrite run_cons.
  eapply posts_own_trans; [apply listener_own | ].
  apply run_without_callback.
  cbn [deliver]. rewrite (listener_generate E d w Hty). unfold spawn, generate.
  assert (H1 : acquired_without_callback
                 (getInstance (config d) None
                    (set_stopping_criteria (reset (stopping_criteria w)) w)).2).
  { unfold getInstance, from_pretrained, acquired_without_callback, no_callback. cbn.
    destruct (tokenizer (pipeline w)); cbn; destruct (model (pipeline w)); cbn;
      (split; [ | split; eauto]);
      rewrite ?Forall_app; repeat split; try exact Hn; repeat constructor. }
  destruct (getInstance _ _ _) as [[tok mdl] w1]. cbn [snd] in H1.
  exact (kept_acquired_without_callback _ _
           (generate_at_getInstance_kept (data d) tok mdl w1) H1).
Qed.

(** ** The worker stays usable *)

Lemma deliver_slots o w tok mdl :
  tokenizer (pipeline w) = Some tok ->
  model (pipeline w) = Some mdl ->
  tokenizer (pipeline (deliver E o w)) = Some tok
  /\ model (pipeline (deliver E o w)) = Some mdl.
Proof.
  intros Ht Hm.
  assert (Hk : forall w', kept w w' ->
                 tokenizer (pipeline w') = Some tok /\ model (pipeline w') = Some mdl).
  { intros w' (_ & Hp & _). rewrite Hp. split; assumption. }
  destruct o as [d | h x | h r | i | i reason | i st].
  - cbn [deliver]. unfold listener, try_block.
    destruct (strict_eq_string (type d) "load").
    { unfold spawn, load. erewrite getInstance_hit by (cbn; eassumption).
      destruct (load_at_getInstance_kept tok mdl
                  (set_pipeline {| model_id := Some (modelName (config d));
                                   tokenizer := Some tok; model := Some mdl |}
                     (postMessage (loading_model (config d)) w))) as (_ & Hp & _).
      unfold loading_model in Hp. read_fields. rewrite Hp. split; reflexivity. }
    destruct (strict_eq_string (type d) "generate").
    { unfold spawn, generate. erewrite getInstance_hit by (cbn; eassumption).
      destruct (generate_at_getInstance_kept (data d) tok mdl
                  (set_pipeline {| model_id := Some (modelName (config d));
                                   tokenizer := Some tok; model := Some mdl |}
                     (set_stopping_criteria (reset (stopping_criteria w)) w)))
        as (_ & Hp & _).
      read_fields. rewrite Hp. split; reflexivity. }
    destruct (strict_eq_string (type d) "interrupt"); [split; assumption | ].
    destruct (strict_eq_string (type d) "reset"); split; assumption.
  - exact (Hk _ (deliver_kept (Loader_progress h x) w)).
  - destruct (loader_settles_flag_pipeline h r w) as (_ & Hp & _).
    cbn [deliver]. rewrite Hp. split; assumption.
  - exact (Hk _ (deliver_kept (Warmup_done i) w)).
  - exact (Hk _ (deliver_kept (Engine_rejects i reason) w)).
  - exact (Hk _ (deliver_kept (Decode_step i st) w)).
Qed.

Lemma run_slots os w tok mdl :
  tokenizer (pipeline w) = Some tok ->
  model (pipeline w) = Some mdl ->
  tokenizer (pipeline (run E os w)) = Some tok
  /\ model (pipeline (run E os w)) = Some mdl.
Proof.
  revert w. induction os as [ | o os IH]; intros w Ht Hm; [split; assumption | ].
  rewrite run_cons. destruct (deliver_slots o w tok mdl Ht Hm) as (A & B).
  apply IH; assumption.
Qed.

(** ** The loader log *)

(** With the resource in the pipeline no command calls the loader. *)
Lemma deliver_calls o w tok mdl :
  tokenizer (pipeline w) = Some tok ->
  model (pipeline w) = Some mdl ->
  (loads (deliver E o w)).*1 = (loads w).*1.
Proof.
  intros Ht Hm.
  assert (Hk : forall w', kept w w' -> (loads w').*1 = (loads w).*1).
  { intros w' (_ & _ & Hl). rewrite Hl. reflexivity. }
  destruct o as [d | h x | h r | i | i reason | i st].
  - cbn [deliver]. unfold listener, try_block.
    destruct (strict_eq_string (type d) "load").
    { unfold spawn, load. erewrite getInstance_hit by (cbn; eassumption).
      destruct (load_at_getInstance_kept tok mdl
                  (set_pipeline {| model_id := Some (modelName (config d));
                                   tokenizer := Some tok; model := Some mdl |}
                     (postMessage (loading_model (config d)) w))) as (_ & _ & Hl).
      unfold loading_model in Hl. read_fields. rewrite Hl. reflexivity. }
    destruct (strict_eq_string (type d) "generate").
    { unfold spawn, generate. erewrite getInstance_hit by (cbn; eassumption).
      destruct (generate_at_getInstance_kept (data d) tok mdl
                  (set_pipeline {| model_id := Some (modelName (config d));
                                   tokenizer := Some tok; model := Some mdl |}
                     (set_stopping_criteria (reset (stopping_criteria w)) w)))
        as (_ & _ & Hl).
      read_fields. rewrite Hl. reflexivity. }
    destruct (strict_eq_string (type d) "interrupt"); [reflexivity | ].
    destruct (strict_eq_string (type d) "reset"); reflexivity.
  - exact (Hk _ (deliver_kept (Loader_progress h x) w)).
  - destruct (loader_settles_flag_pipeline h r w) as (_ & _ & Hl & _). exact Hl.
  - exact (Hk _ (deliver_kept (Warmup_done i) w)).
  - exact (Hk _ (deliver_kept (Engine_rejects i reason) w)).
  - exact (Hk _ (deliver_kept (Decode_step i st) w)).
Qed.

Lemma run_calls os w tok mdl :
  tokenizer (pipeline w) = Some tok ->
  model (pipeline w) = Some mdl ->
  (loads (run E os w)).*1 = (loads w).*1.
Proof.
  revert w. induction os as [ | o os IH]; intros w Ht Hm; [reflexivity | ].
  rewrite run_cons. destruct (deliver_slots o w tok mdl Ht Hm) as (A & B).
  rewrite (IH _ A B). apply (deliver_calls o w tok mdl Ht Hm).
Qed.

(** Before a command asks for the resource nothing is loaded. *)
Lemma deliver_idle o w :
  tokenizer (pipeline w) = None ->
  model (pipeline w) = None ->
  loads w = [] ->
  asks_for_resource o = false ->
  tokenizer (pipeline (deliver E o w)) = None
  /\ model (pipeline (deliver E o w)) = None
  /\ loads (deliver E o w) = [].
Proof.
  intros Ht Hm Hl Ho.
  assert (Hk : forall w', kept w w' ->
                 tokenizer (pipeline w') = None /\ model (pipeline w') = None
                 /\ loads w' = []).
  { intros w' (_ & Hp & Hl'). rewrite Hp, Hl'. auto. }
  destruct o as [d | h x | h r | i | i reason | i st].
  - cbn in Ho. apply orb_false_elim in Ho as (Hlo & Hge).
    cbn [deliver]. unfold listener, try_block. rewrite Hlo, Hge.
    destruct (strict_eq_string (type d) "interrupt"); [cbn; auto | ].
    destruct (strict_eq_string (type d) "reset"); cbn; auto.
  - exact (Hk _ (deliver_kept (Loader_progress h x) w)).
  - cbn [deliver]. unfold loader_settles. rewrite Hl. cbn. auto.
  - exact (Hk _ (deliver_kept (Warmup_done i) w)).
  - exact (Hk _ (deliver_kept (Engine_rejects i reason) w)).
  - exact (Hk _ (deliver_kept (Decode_step i st) w)).
Qed.

Lemma run_idle os w :
  tokenizer (pipeline w) = None ->
  model (pipeline w) = None ->
  loads w = [] ->
  Forall (fun o => asks_for_resource o = false) os ->
  tokenizer (pipeline (run E os w)) = None
  /\ model (pipeline (run E os w)) = None
  /\ loads (run E os w) = [].
Proof.
  intros Ht Hm Hl Hos. revert w Ht Hm Hl.
  induction Hos as [ | o os Ho _ IH]; intros w Ht Hm Hl; [auto | ].
  rewrite run_cons. destruct (deliver_idle o w Ht Hm Hl Ho) as (A & B & C).
  apply IH; assumption.
Qed.

(** The first command that asks for the resource calls the loader
    twice, for its own Config and with its own callback. *)
Lemma first_command_calls d cbk w :
  tokenizer (pipeline w) = None ->
  model (pipeline w) = None ->
  loads w = [] ->
  (type d = JSString "load" /\ cbk = Some post_progress)
  \/ (type d = JSString "generate" /\ cbk = None) ->
  let w' := deliver E (Message_event d) w in
  tokenizer (pipeline w') = Some 0
  /\ model (pipeline w') = Some 1
  /\ (loads w').*1 =
       [AutoTokenizer_from_pretrained (modelName (config d)) true cbk;
        AutoModelForCausalLM_from_pretrained
          (modelName (config d)) (dtype (config d)) (device (config d)) true cbk].
Proof.
  intros Ht Hm Hl [(Hty & ->) | (Hty & ->)]; cbn zeta; cbn [deliver].
  - rewrite (listener_load E d w Hty). unfold spawn, load.
    rewrite getInstance_miss by assumption.
    match goal with
    | |- context [load_at_getInstance E ?t ?m ?W] =>
        pose proof (load_at_getInstance_kept t m W) as Hk;
        destruct (load_at_getInstance E t m W) as [tk W']
    end.
    destruct Hk as (_ & Hp & Hl'). cbn [snd] in Hp, Hl'.
    read_fields. rewrite Hp, Hl'. read_fields. rewrite Hl. auto.
  - rewrite (listener_generate E d w Hty). unfold spawn, generate.
    rewrite getInstance_miss by assumption.
    match goal with
    | |- context [generate_at_getInstance E ?ms ?t ?m ?W] =>
        pose proof (generate_at_getInstance_kept ms t m W) as Hk;
        destruct (generate_at_getInstance E ms t m W) as [tk W']
    end.
    destruct Hk as (_ & Hp & Hl'). cbn [snd] in Hp, Hl'.
    read_fields. rewrite Hp, Hl'. read_fields. rewrite Hl. auto.
Qed.

(** X2. A worker calls the loader at most twice in its life, once for
    the tokenizer and once for the model. Nothing is loaded before a
    load or generate command arrives; the first such command makes the
    two calls, both for its own Config and both with its own progress
    callback (the posting one of load, none of generate); and whatever
    follows, with whatever Config, the log of loader calls stays at
    exactly those two. *)
Theorem loader_called_at_most_once_each pre d cbk os w :
  tokenizer (pipeline w) = None ->
  model (pipeline w) = None ->
  loads w = [] ->
  Forall (fun o => asks_for_resource o = false) pre ->
  (type d = JSString "load" /\ cbk = Some post_progress)
  \/ (type d = JSString "generate" /\ cbk = None) ->
  loads (run E pre w) = []
  /\ (loads (run E (pre ++ Message_event d :: os) w)).*1 =
       [AutoTokenizer_from_pretrained (modelName (config d)) true cbk;
        AutoModelForCausalLM_from_pretrained
          (modelName (config d)) (dtype (config d)) (device (config d)) true cbk].
Proof.
  intros Ht Hm Hl Hpre Hd.
  destruct (run_idle pre w Ht Hm Hl Hpre) as (Ht1 & Hm1 & Hl1).
  split; [exact Hl1 | ].
  destruct (first_command_calls d cbk (run E pre w) Ht1 Hm1 Hl1 Hd) as (Ht2 & Hm2 & Hl2).
  rewrite run_app, run_cons.
  rewrite (run_calls os _ 0 1 Ht2 Hm2). exact Hl2.
Qed.

(** X3. Once the pipeline holds its two promises, nothing that happens
    to the worker replaces them or calls the loader again, and a
    promise that has settled keeps its state: a loaded tokenizer or
    model is never dropped or reloaded, and a rejection is never
    cleared. *)
Theorem settled_promise_is_final os w tok mdl :
  tokenizer (pipeline w) = Some tok ->
  model (pipeline w) = Some mdl ->
  let w' := run E os w in
  tokenizer (pipeline w') = Some tok
  /\ model (pipeline w') = Some mdl
  /\ (loads w').*1 = (loads w).*1
  /\ forall h, promise_state w h <> Pending -> promise_state w' h = promise_state w h.
Proof.
  intros Ht Hm w'. subst w'.
  destruct (run_slots os w tok mdl Ht Hm) as (A & B).
  split; [exact A | split; [exact B | split ] ].
  - exact (run_calls os w tok mdl Ht Hm).
  - clear Ht Hm A B. revert w.
    induction os as [ | o os IH]; intros w h Hh; [reflexivity | ].
    rewrite run_cons, IH.
    + apply deliver_promise_state, Hh.
    + rewrite deliver_promise_state; exact Hh.
Qed.

Lemma Promise_all_Fulfilled w tok mdl :
  Promise_all w tok mdl = Fulfilled <->
  promise_state w tok = Fulfilled /\ promise_state w mdl = Fulfilled.
Proof.
  unfold Promise_all.
  destruct (promise_state w tok), (promise_state w mdl);
    (split; [intros H | intros (H1 & H2)]); try discriminate; auto.
Qed.

Lemma run_Promise_all_Fulfilled os w tok mdl :
  Promise_all w tok mdl = Fulfilled ->
  Promise_all (run E os w) tok mdl = Fulfilled.
Proof.
  revert w. induction os as [ | o os IH]; intros w H; [exact H | ].
  rewrite run_cons. apply IH.
  apply Promise_all_Fulfilled in H as (A & B).
  apply Promise_all_Fulfilled.
  rewrite !deliver_promise_state by congruence. split; assumption.
Qed.

(** X7. Once the resource is acquired it stays acquired through
    anything that happens to the worker (failed generations, rejected
    engine calls, interrupts, further load commands, unknown messages),
    so a later generate command with an encoded request and an engine
    that runs to its natural end goes through as ever: start, one
    update per step, complete. *)
Theorem worker_stays_usable os d steps last w tok mdl :
  tokenizer (pipeline w) = Some tok ->
  model (pipeline w) = Some mdl ->
  Promise_all w tok mdl = Fulfilled ->
  type d = JSString "generate" ->
  js_typeof (apply_chat_template E tok (data d)) = "object" ->
  Forall (fun st => engine_done st = false) steps ->
  engine_done last = true ->
  let w1 := run E os w in
  let i := length (tasks w1) in
  let w' := run E (Message_event d :: (Decode_step i <$> steps ++ [last])) w1 in
  Promise_all w1 tok mdl = Fulfilled
  /\ outbox w' =
       outbox w1 ++ [start]
       ++ UpdateEvents E (clock_reads w1)
            ((fun st => decode E tok (ds_tokens st) true) <$> steps ++ [last])
       ++ [complete (batch_decode E tok (ds_rows last).*1 false)]
  /\ tasks w' !! i = Some returned.
Proof.
  intros Ht Hm Hall Hty Hobj Hsteps Hlast w1 i w'.
  destruct (run_slots os w tok mdl Ht Hm) as (Ht1 & Hm1). fold w1 in Ht1, Hm1.
  assert (Hall1 : Promise_all w1 tok mdl = Fulfilled).
  { subst w1. apply run_Promise_all_Fulfilled, Hall. }
  split; [exact Hall1 | ].
  destruct (generate_starts E d w1 tok mdl Hty Ht1 Hm1 Hall1 Hobj)
    as (Htask & Hflag & Hout & Hclk & Hunh).
  destruct (session_runs E i steps last _ _ tok (new_CallbackTextStreamer tok)
              Htask eq_refl eq_refl Hflag Hsteps Hlast)
    as (Ho & Hr & Hu).
  subst w'. rewrite run_cons. split.
  - rewrite Ho, Hout, Hclk, <- !app_assoc. reflexivity.
  - exact Hr.
Qed.

(** ** Two load commands at once *)

Lemma world_eq w sc p l ts r o u :
  stopping_criteria w = sc -> pipeline w = p -> loads w = l -> tasks w = ts ->
  clock_reads w = r -> outbox w = o -> unhandled w = u ->
  w = {| stopping_criteria := sc; pipeline := p; loads := l; tasks := ts;
         clock_reads := r; outbox := o; unhandled := u |}.
Proof. destruct w. cbn. intros. subst. reflexivity. Qed.

(** Brings a world, given by an expression over a record of fields, to
    the form of a record of its seven fields. *)
Ltac flat_world x :=
  let H := fresh "Hflat" in
  eassert (H : x = Build_world _ _ _ _ _ _ _)
    by (apply world_eq; cbn; reflexivity);
  rewrite H; clear H.

Ltac is_flat w := match w with Build_world _ _ _ _ _ _ _ => idtac end.

Ltac flat_step :=
  match goal with
  | |- context [spawn ?r] => flat_world (spawn r)
  | |- context [posted ?es ?w] => is_flat w; flat_world (posted es w)
  | |- context [loader_settles ?E0 ?h ?r ?w] =>
      is_flat w; flat_world (loader_settles E0 h r w)
  | |- context [warmup_done ?i ?w] => is_flat w; flat_world (warmup_done i w)
  end.

(** X8. Two load commands in a row, for any two Configs, share one
    acquisition: the loader is called for the first Config only, every
    progress report is republished once (by the first command's
    callback), and when both loads are in each command warms up and
    posts its own ready. *)
Theorem concurrent_loads_share_one_acquisition c1 c2 ms1 ms2 ps (tok_first : bool) w :
  tokenizer (pipeline w) = None ->
  model (pipeline w) = None ->
  loads w = [] ->
  tasks w = [] ->
  let d1 := {| type := JSString "load"; data := ms1; config := c1 |} in
  let d2 := {| type := JSString "load"; data := ms2; config := c2 |} in
  let h1 := if tok_first then 0 else 1 in
  let h2 := if tok_first then 1 else 0 in
  let w' :=
    run E ([Message_event d1; Message_event d2]
           ++ (progress_of 0 1 <$> ps)
           ++ [Loader_settles h1 None; Loader_settles h2 None;
               Warmup_done 0; Warmup_done 1]) w in
  outbox w' =
    outbox w ++ [loading_model c1; loading_model c2]
    ++ (republished <$> ps.*2)
    ++ [loading_warmup; loading_warmup; ready; ready]
  /\ loads w' =
       [(AutoTokenizer_from_pretrained (modelName c1) true (Some post_progress),
         Fulfilled);
        (AutoModelForCausalLM_from_pretrained
           (modelName c1) (dtype c1) (device c1) true (Some post_progress),
         Fulfilled)]
  /\ tasks w' = [returned; returned].
Proof.
  intros Ht Hm Hl Hts d1 d2 h1 h2 w'.
  destruct w as [sc [mid t m] l ts r o u]. cbn in Ht, Hm, Hl, Hts. subst t m l ts.
  assert (Hw' : w' =
    {| stopping_criteria := sc;
       pipeline := {| model_id := Some (modelName c2); tokenizer := Some 0;
                      model := Some 1 |};
       loads := [(AutoTokenizer_from_pretrained (modelName c1) true (Some post_progress),
                  Fulfilled);
                 (AutoModelForCausalLM_from_pretrained
                    (modelName c1) (dtype c1) (device c1) true (Some post_progress),
                  Fulfilled)];
       tasks := [returned; returned];
       clock_reads := r;
       outbox := o ++ [loading_model c1; loading_model c2]
                   ++ (republished <$> ps.*2)
                   ++ [loading_warmup; loading_warmup; ready; ready];
       unhandled := u |}).
  { subst w'. rewrite !run_app. rewrite !run_cons. cbn [deliver run foldl].
    rewrite (listener_load E d1) by reflexivity.
    unfold load at 1. rewrite getInstance_miss by reflexivity.
    flat_step.
    rewrite (listener_load E d2) by reflexivity.
    unfold load at 1. erewrite getInstance_hit by reflexivity.
    flat_step.
    erewrite run_progress; [ | reflexivity | reflexivity | reflexivity | reflexivity ].
    flat_step.
    destruct tok_first; subst h1 h2.
    - flat_step.
      flat_step.
      flat_step.
      flat_step.
      rewrite <- !app_assoc. reflexivity.
    - flat_step.
      flat_step.
      flat_step.
      flat_step.
      rewrite <- !app_assoc. reflexivity. }
  rewrite Hw'. cbn. repeat split; reflexivity.
Qed.

End Worker_life.

(** * Properties of the page *)

Lemma string_app_assoc (a b c : string) : (a +:+ b) +:+ c = a +:+ (b +:+ c).
Proof.
  induction a as [ | x a IH]; [reflexivity | ].
  change (String x ((a +:+ b) +:+ c) = String x (a +:+ (b +:+ c))).
  rewrite IH. reflexivity.
Qed.

Lemma string_app_empty_r (a : string) : a +:+ EmptyString = a.
Proof.
  induction a as [ | x a IH]; [reflexivity | ].
  change (String x (a +:+ EmptyString) = String x a).
  rewrite IH. reflexivity.
Qed.

(** ** The switch, case by case *)

Lemma onMessageReceived_start s :
  App.onMessageReceived start s =
  App.setMessages
    (App.messages s ++ [{| role := "assistant"; content := EmptyString |}]) s.
Proof. reflexivity. Qed.

Lemma onMessageReceived_update o t n s :
  App.onMessageReceived (update o t n) s =
  App.setMessages (App.append_output (Some o) (App.messages s))
    (App.setNumTokens (Some n) (App.setTps t s)).
Proof. reflexivity. Qed.

Lemma onMessageReceived_complete out s :
  App.onMessageReceived (complete out) s = App.setIsRunning false s.
Proof. reflexivity. Qed.

Lemma append_output_snoc o pre l :
  App.append_output o (pre ++ [l]) =
  pre ++ [{| role := role l; content := js_plus (content l) o |}].
Proof.
  unfold App.append_output. rewrite last_snoc, length_app. cbn [length].
  replace (length pre + 1 - 1) with (length pre + 0) by lia.
  rewrite insert_app_r. reflexivity.
Qed.

(** ** The progress list *)

Lemma handle_progressItems s c :
  App.progressItems s = None -> App.progressItems (App.handle s c) = None.
Proof.
  intros H. destruct c as [e | m | k sh | v | | | | v | v | v]; cbn [App.handle].
  - unfold App.onMessageReceived.
    repeat (match goal with |- context [if ?b then _ else _] => destruct b end);
      cbn; rewrite ?H; reflexivity.
  - exact H.
  - unfold App.onKeyDown. destruct (_ && _); exact H.
  - exact H.
  - unfold App.generate_effect.
    repeat (match goal with |- context [if ?b then _ else _] => destruct b end); exact H.
  - exact H.
  - exact H.
  - unfold App.change_modelName. destruct (bool_decide _); exact H.
  - unfold App.change_dtype. destruct (bool_decide _); exact H.
  - unfold App.change_device. destruct (bool_decide _); exact H.
Qed.

(** X9. The list of progress items starts undefined and every
    updater of it maps undefined to undefined ([prev?.concat],
    [prev?.map], [prev?.filter]), so whatever the worker sends and
    whatever the user does, the list is never defined: the page never
    has a progress item to show. *)
Theorem progress_items_stay_undefined calls :
  App.progressItems (foldl App.handle App.initial calls) = None.
Proof.
  assert (H : forall s, App.progressItems s = None ->
                        App.progressItems (foldl App.handle s calls) = None).
  { induction calls as [ | c calls IH]; intros s Hs; [exact Hs | ].
    cbn [foldl]. apply IH, handle_progressItems, Hs. }
  apply H. reflexivity.
Qed.

(** ** The Config the page sends *)

Lemma handle_config s c :
  App.modelName s ∈ modelNames /\ App.dtype s ∈ dtypes /\ App.device s ∈ devices ->
  App.modelName (App.handle s c) ∈ modelNames
  /\ App.dtype (App.handle s c) ∈ dtypes
  /\ App.device (App.handle s c) ∈ devices.
Proof.
  intros H. destruct c as [e | m | k sh | v | | | | v | v | v]; cbn [App.handle].
  - unfold App.onMessageReceived.
    repeat (match goal with |- context [if ?b then _ else _] => destruct b end);
      exact H.
  - exact H.
  - unfold App.onKeyDown. destruct (_ && _); exact H.
  - exact H.
  - unfold App.generate_effect.
    repeat (match goal with |- context [if ?b then _ else _] => destruct b end); exact H.
  - exact H.
  - exact H.
  - unfold App.change_modelName. destruct (bool_decide_reflect (v ∈ modelNames)) as [Hv | ];
      [ | exact H].
    destruct H as (_ & B & C). repeat split; assumption.
  - unfold App.change_dtype. destruct (bool_decide_reflect (v ∈ dtypes)) as [Hv | ];
      [ | exact H].
    destruct H as (A & _ & C). repeat split; assumption.
  - unfold App.change_device. destruct (bool_decide_reflect (v ∈ devices)) as [Hv | ];
      [ | exact H].
    destruct H as (A & B & _). repeat split; assumption.
Qed.

(** X10. Whatever values the selects report and whatever else
    happens on the page, the model name, the data type and the device
    of the state are entries of the lists of const.ts, and so is the
    Config of every generate and load message the page posts. *)
Theorem config_is_always_listed calls :
  let s := foldl App.handle App.initial calls in
  (App.modelName s ∈ modelNames /\ App.dtype s ∈ dtypes /\ App.device s ∈ devices)
  /\ (forall m, (App.generate_effect s).2 = Some m ->
        modelName (config m) ∈ modelNames
        /\ dtype (config m) ∈ dtypes
        /\ device (config m) ∈ devices)
  /\ modelName (config (App.click_load s).2) ∈ modelNames
  /\ dtype (config (App.click_load s).2) ∈ dtypes
  /\ device (config (App.click_load s).2) ∈ devices.
Proof.
  intros s.
  assert (H : App.modelName s ∈ modelNames /\ App.dtype s ∈ dtypes
              /\ App.device s ∈ devices).
  { subst s.
    assert (G : forall s0,
               (App.modelName s0 ∈ modelNames /\ App.dtype s0 ∈ dtypes
                /\ App.device s0 ∈ devices) ->
               App.modelName (foldl App.handle s0 calls) ∈ modelNames
               /\ App.dtype (foldl App.handle s0 calls) ∈ dtypes
               /\ App.device (foldl App.handle s0 calls) ∈ devices).
    { induction calls as [ | c calls IH]; intros s0 Hs; [exact Hs | ].
      cbn [foldl]. apply IH, handle_config, Hs. }
    apply G. repeat split; apply (bool_decide_unpack _); vm_compute; exact I. }
  split; [exact H | split; [ | exact H] ].
  intros m. unfold App.generate_effect.
  repeat (match goal with |- context [if ?b then _ else _] => destruct b end);
    cbn; try discriminate.
  intros [= <-]. exact H.
Qed.

(** ** Streaming *)

(** X11. An update message never adds, removes or re-attributes a
    message of the history: it extends the text of the last message,
    whatever its role, and on an empty history it leaves the history
    empty. *)
Theorem update_keeps_roles e s :
  status_of e = "update" ->
  role <$> App.messages (App.onMessageReceived e s) = role <$> App.messages s
  /\ (App.messages s = [] -> App.messages (App.onMessageReceived e s) = [])
  /\ (forall pre l, App.messages s = pre ++ [l] ->
        App.messages (App.onMessageReceived e s)
        = pre ++ [{| role := role l; content := js_plus (content l) (output_of e) |}]).
Proof.
  intros He.
  assert (Hm : App.messages (App.onMessageReceived e s)
               = App.append_output (output_of e) (App.messages s)).
  { unfold App.onMessageReceived. rewrite He. reflexivity. }
  rewrite Hm. split; [ | split ].
  - destruct (App.messages s) as [ | x l] using rev_ind; [reflexivity | ].
    rewrite append_output_snoc, !fmap_app. reflexivity.
  - intros ->. reflexivity.
  - intros pre l ->. apply append_output_snoc.
Qed.

Lemma receive_updates (ups : list (string * option float * Z)) s pre r c :
  App.messages s = pre ++ [{| role := r; content := c |}] ->
  let s' := App.receive ((fun u => update u.1.1 u.1.2 u.2) <$> ups) s in
  App.messages s' = pre ++ [{| role := r; content := c +:+ concat_strings ups.*1.*1 |}]
  /\ App.isRunning s' = App.isRunning s
  /\ App.numTokens s' = match last ups with
                        | None => App.numTokens s
                        | Some u => Some u.2
                        end
  /\ App.tps s' = match last ups with None => App.tps s | Some u => u.1.2 end.
Proof.
  revert s c. induction ups as [ | [[o t] n] ups IH]; intros s c Hs.
  - cbn. rewrite string_app_empty_r. auto.
  - cbn zeta. unfold App.receive. rewrite fmap_cons. cbn [foldl fst snd].
    rewrite onMessageReceived_update.
    fold (App.receive ((fun u => update u.1.1 u.1.2 u.2) <$> ups)
            (App.setMessages (App.append_output (Some o) (App.messages s))
               (App.setNumTokens (Some n) (App.setTps t s)))).
    destruct (IH (App.setMessages (App.append_output (Some o) (App.messages s))
                    (App.setNumTokens (Some n) (App.setTps t s)))
                 (c +:+ o)) as (A & B & C & D).
    { cbn. rewrite Hs, append_output_snoc. reflexivity. }
    rewrite A, B, C, D. cbn. rewrite string_app_assoc, !last_cons.
    destruct (last ups); auto.
Qed.

(** X12. A start message, any number of update messages and a
    complete message, received in that order, leave the history with
    one more message, from the assistant, whose text is the fragments
    of the updates put together in order; the page is no longer
    running, and it shows the count of the last update. *)
Theorem streamed_reply_is_concatenated (ups : list (string * option float * Z)) out s :
  let s' := App.receive
              ([start] ++ ((fun u => update u.1.1 u.1.2 u.2) <$> ups) ++ [complete out])
              s in
  App.messages s' =
    App.messages s ++ [{| role := "assistant"; content := concat_strings ups.*1.*1 |}]
  /\ App.isRunning s' = false
  /\ App.numTokens s' = match last ups with
                        | None => App.numTokens s
                        | Some u => Some u.2
                        end.
Proof.
  intros s'. subst s'. unfold App.receive. rewrite !foldl_app. cbn [foldl].
  rewrite onMessageReceived_complete, onMessageReceived_start.
  fold (App.receive ((fun u => update u.1.1 u.1.2 u.2) <$> ups)
          (App.setMessages
             (App.messages s ++ [{| role := "assistant"; content := EmptyString |}]) s)).
  destruct (receive_updates ups
              (App.setMessages
                 (App.messages s ++ [{| role := "assistant"; content := EmptyString |}]) s)
              (App.messages s) "assistant" EmptyString eq_refl) as (A & B & C & D).
  cbn. rewrite A, C. auto.
Qed.

(** ** When the page asks for a generation *)

Lemma onMessageReceived_last_assistant e s :
  role <$> last (App.messages s) = Some "assistant" ->
  role <$> last (App.messages (App.onMessageReceived e s)) = Some "assistant".
Proof.
  intros H. unfold App.onMessageReceived.
  repeat (match goal with |- context [if ?b then _ else _] => destruct b end);
    try exact H.
  - cbn. rewrite last_snoc. reflexivity.
  - cbn. destruct (App.messages s) as [ | l pre _] using rev_ind; [discriminate | ].
    rewrite last_snoc in H. rewrite append_output_snoc, last_snoc. exact H.
Qed.

Lemma effect_silent s :
  role <$> last (App.messages s) = Some "assistant" ->
  App.generate_effect s = (s, None).
Proof.
  intros H. unfold App.generate_effect.
  destruct (bool_decide _); [reflexivity | ].
  rewrite bool_decide_eq_true_2 by exact H. reflexivity.
Qed.

(** X13. The effect on the history, run after [onEnter],
    posts a generate message with the whole history, new turn included,
    and the Config of the state; run once the worker's start message
    has arrived, whatever the worker has sent after it, the effect
    posts nothing, so the streamed reply does not set off another
    generation. *)
Theorem effect_posts_after_enter_not_after_start m es s :
  (App.generate_effect (App.onEnter m s)).2
  = Some (generate_message
            (App.messages s ++ [{| role := "user"; content := m |}])
            (Build_Config (App.modelName s) (App.dtype s) (App.device s)))
  /\ App.generate_effect (App.receive (start :: es) s)
     = (App.receive (start :: es) s, None).
Proof.
  split.
  - unfold App.generate_effect, App.onEnter. cbn.
    rewrite filter_app, length_app, last_snoc.
    rewrite bool_decide_eq_false_2.
    + reflexivity.
    + rewrite filter_cons_True by reflexivity. rewrite length_cons. lia.
  - apply effect_silent.
    unfold App.receive. cbn [foldl]. rewrite onMessageReceived_start.
    assert (H : forall s0, role <$> last (App.messages s0) = Some "assistant" ->
                role <$> last (App.messages
                                 (foldl (fun s e => App.onMessageReceived e s) s0 es))
                = Some "assistant").
    { induction es as [ | e es IH]; intros s0 H0; [exact H0 | ].
      cbn [foldl]. apply IH, onMessageReceived_last_assistant, H0. }
    apply H. cbn. rewrite last_snoc. reflexivity.
Qed.

(** X14. The Enter key submits only a non-empty input on a page
    that is not running; a submission marks the page running and clears
    the input, so any key pressed after it changes nothing: one turn is
    submitted once. *)
Theorem enter_key_submits_once k sh k' sh' m s :
  (App.isRunning s = true -> App.onKeyDown k sh s = s)
  /\ (App.input s = EmptyString -> App.onKeyDown k sh s = s)
  /\ (App.input s <> EmptyString -> App.isRunning s = false ->
      App.onKeyDown "Enter" false s = App.onEnter (App.input s) s)
  /\ App.onKeyDown k' sh' (App.onEnter m s) = App.onEnter m s.
Proof.
  split; [ | split; [ | split ] ].
  - intros H. unfold App.onKeyDown. rewrite H, andb_false_r. reflexivity.
  - intros H. unfold App.onKeyDown. rewrite H. reflexivity.
  - intros Hi Hr. unfold App.onKeyDown. rewrite Hr.
    destruct (App.input s) as [ | a i]; [congruence | reflexivity].
  - unfold App.onKeyDown. reflexivity.
Qed.

(** ** The running state *)

Lemma handle_isRunning s c :
  not_complete c -> App.isRunning s = true -> App.isRunning (App.handle s c) = true.
Proof.
  intros Hc H. destruct c as [e | m | k sh | v | | | | v | v | v]; cbn [App.handle].
  - cbn in Hc. unfold App.onMessageReceived.
    repeat (match goal with
            | |- context [if bool_decide ?P then _ else _] =>
                destruct (bool_decide_reflect P)
            end); try exact H; congruence.
  - reflexivity.
  - unfold App.onKeyDown. destruct (_ && _); [reflexivity | exact H].
  - exact H.
  - unfold App.generate_effect.
    repeat (match goal with |- context [if ?b then _ else _] => destruct b end); exact H.
  - exact H.
  - exact H.
  - unfold App.change_modelName. destruct (bool_decide _); exact H.
  - unfold App.change_dtype. destruct (bool_decide _); exact H.
  - unfold App.change_device. destruct (bool_decide _); exact H.
Qed.

(** X15. Only a complete message of the worker ends the running
    state of the page: through any other message (an error message
    included) and through anything the user does, a running page stays
    running. *)
Theorem only_complete_ends_running calls s :
  Forall not_complete calls ->
  App.isRunning s = true ->
  App.isRunning (foldl App.handle s calls) = true.
Proof.
  intros Hc. revert s. induction Hc as [ | c calls Hc _ IH]; intros s H; [exact H | ].
  cbn [foldl]. apply IH, handle_isRunning; assumption.
Qed.

(** ** One turn, from the page to the worker and back *)

Section Turn.

Variable E : External.

Lemma imap_triples_fst (a : nat -> option float) (b : nat -> Z) (fs : list string) :
  (imap (fun k text => (text, a k, b k)) fs).*1.*1 = fs.
Proof.
  revert a b. induction fs as [ | f fs IH]; intros a b; [reflexivity | ].
  cbn. f_equal. exact (IH (a ∘ S) (b ∘ S)).
Qed.

Lemma UpdateEvents_triples r0 (fs : list string) :
  exists ups : list (string * option float * Z),
    UpdateEvents E r0 fs = (fun u => update u.1.1 u.1.2 u.2) <$> ups
    /\ ups.*1.*1 = fs.
Proof.
  exists (imap (fun k text => (text, tokensPerSecond E r0 (S k), Z.of_nat (S k))) fs).
  split.
  - unfold UpdateEvents. rewrite fmap_imap. apply imap_ext. reflexivity.
  - apply imap_triples_fst.
Qed.

(** X16. One whole turn. On a worker that holds its resource, the
    generate message that the page posts after the user enters [m]
    (with an encodable history and an engine that runs to its natural
    end) makes the worker post messages which, received by the page in
    order, leave it with the history extended by the user's turn and
    one assistant turn, whose text is the decoded fragments of all the
    steps put together, and no longer running. *)
Theorem turn_round_trip m s steps last w tok mdl :
  tokenizer (pipeline w) = Some tok ->
  model (pipeline w) = Some mdl ->
  Promise_all w tok mdl = Fulfilled ->
  let turn := {| role := "user"; content := m |} in
  js_typeof (apply_chat_template E tok (App.messages s ++ [turn])) = "object" ->
  Forall (fun st => engine_done st = false) steps ->
  engine_done last = true ->
  let p := App.generate_effect (App.onEnter m s) in
  let d := generate_message (App.messages s ++ [turn])
             (Build_Config (App.modelName s) (App.dtype s) (App.device s)) in
  let i := length (tasks w) in
  let w' := run E (Message_event d :: (Decode_step i <$> steps ++ [last])) w in
  let s' := App.receive (drop (length (outbox w)) (outbox w')) p.1 in
  p.2 = Some d
  /\ App.messages s' =
    App.messages s
    ++ [turn;
        {| role := "assistant";
           content := concat_strings
                        ((fun st => decode E tok (ds_tokens st) true)
                           <$> steps ++ [last]) |}]
  /\ App.isRunning s' = false.
Proof.
  intros Ht Hm Hall turn Hobj Hsteps Hlast p d i w' s'.
  assert (Hp : p = (App.setTps (Some 0%float) (App.onEnter m s), Some d)).
  { subst p. unfold App.generate_effect, App.onEnter. cbn.
    rewrite filter_app, length_app, last_snoc.
    rewrite bool_decide_eq_false_2.
    - reflexivity.
    - rewrite filter_cons_True by reflexivity. rewrite length_cons. lia. }
  destruct (generate_starts E d w tok mdl eq_refl Ht Hm Hall Hobj)
    as (Htask & Hflag & Hout & Hclk & Hunh).
  destruct (session_runs E i steps last _ _ tok (new_CallbackTextStreamer tok)
              Htask eq_refl eq_refl Hflag Hsteps Hlast)
    as (Ho & Hr & Hu).
  assert (Hw' : outbox w' =
            outbox w
            ++ [start]
            ++ UpdateEvents E (clock_reads w)
                 ((fun st => decode E tok (ds_tokens st) true) <$> steps ++ [last])
            ++ [complete (batch_decode E tok (ds_rows last).*1 false)]).
  { subst w'. rewrite run_cons.
    rewrite Ho, Hout, Hclk, <- !app_assoc. reflexivity. }
  split; [rewrite Hp; reflexivity | ].
  subst s'. rewrite Hw', drop_app_length, Hp. cbn [fst].
  destruct (UpdateEvents_triples (clock_reads w)
              ((fun st => decode E tok (ds_tokens st) true) <$> steps ++ [last]))
    as (ups & Hups & Hfs).
  rewrite Hups.
  unfold App.receive. rewrite !foldl_app. cbn [foldl].
  rewrite onMessageReceived_complete, onMessageReceived_start.
  set (s1 := App.setMessages _ _).
  fold (App.receive ((fun u => update u.1.1 u.1.2 u.2) <$> ups) s1).
  destruct (receive_updates ups s1 (App.messages s ++ [turn]) "assistant" EmptyString
              eq_refl) as (A & _).
  cbn. rewrite A, Hfs, <- app_assoc. split; reflexivity.
Qed.

End Turn.

(** ** Concrete instances of the properties above *)

Lemma loader_called_at_most_once_each_witness :
  tokenizer (pipeline fresh) = None
  /\ model (pipeline fresh) = None
  /\ loads fresh = []
  /\ Forall (fun o => asks_for_resource o = false) [Message_event (msg "reset" [] cfg)]
  /\ (loads (run engine
               ([Message_event (msg "reset" [] cfg)]
                ++ Message_event (msg "load" [] cfg)
                   :: [Message_event (msg "generate" hi cfg2);
                       Message_event (msg "load" [] cfg2)]) fresh)).*1 =
       [AutoTokenizer_from_pretrained (modelName (config (msg "load" [] cfg))) true
          (Some post_progress);
        AutoModelForCausalLM_from_pretrained
          (modelName (config (msg "load" [] cfg))) (dtype (config (msg "load" [] cfg)))
          (device (config (msg "load" [] cfg))) true (Some post_progress)].
Proof.
  assert (h1 : tokenizer (pipeline fresh) = None) by reflexivity.
  assert (h2 : model (pipeline fresh) = None) by reflexivity.
  assert (h3 : loads fresh = []) by reflexivity.
  assert (h4 : Forall (fun o => asks_for_resource o = false)
                 [Message_event (msg "reset" [] cfg)])
    by (apply Forall_cons_2; [reflexivity | apply Forall_nil_2]).
  exact (conj h1 (conj h2 (conj h3 (conj h4
           (proj2 (loader_called_at_most_once_each engine
                     [Message_event (msg "reset" [] cfg)] (msg "load" [] cfg)
                     (Some post_progress)
                     [Message_event (msg "generate" hi cfg2);
                      Message_event (msg "load" [] cfg2)]
                     fresh h1 h2 h3 h4 (or_introl (conj eq_refl eq_refl)))))))).
Defined.

Lemma settled_promise_is_final_witness :
  tokenizer (pipeline failed) = Some 0
  /\ model (pipeline failed) = Some 1
  /\ promise_state failed 0 <> Pending
  /\ promise_state
       (run engine [Message_event (msg "load" [] cfg2);
                    Loader_settles 0 None] failed) 0
     = promise_state failed 0.
Proof.
  assert (h1 : tokenizer (pipeline failed) = Some 0) by (vm_compute; reflexivity).
  assert (h2 : model (pipeline failed) = Some 1) by (vm_compute; reflexivity).
  assert (h3 : promise_state failed 0 <> Pending) by (vm_compute; discriminate).
  exact (conj h1 (conj h2 (conj h3
           (proj2 (proj2 (proj2
              (settled_promise_is_final engine
                 [Message_event (msg "load" [] cfg2); Loader_settles 0 None]
                 failed 0 1 h1 h2))) 0 h3)))).
Defined.


Lemma generate_first_silences_progress_witness :
  type (msg "generate" hi cfg) = JSString "generate"
  /\ no_callback fresh
  /\ posts_own fresh
       (run engine
          (Message_event (msg "generate" hi cfg)
           :: [Message_event (msg "load" [] cfg2);
               Loader_progress 0 (info "progress" "tokenizer.json")])
          fresh).
Proof.
  assert (h1 : type (msg "generate" hi cfg) = JSString "generate") by reflexivity.
  assert (h2 : no_callback fresh) by (apply Forall_nil_2).
  exact (conj h1 (conj h2
           (generate_first_silences_progress
              engine (msg "generate" hi cfg)
              [Message_event (msg "load" [] cfg2);
               Loader_progress 0 (info "progress" "tokenizer.json")]
              fresh h1 h2))).
Defined.

Lemma worker_stays_usable_witness :
  tokenizer (pipeline loaded) = Some 0
  /\ model (pipeline loaded) = Some 1
  /\ Promise_all loaded 0 1 = Fulfilled
  /\ type (msg "generate" hi cfg) = JSString "generate"
  /\ js_typeof (apply_chat_template engine 0 (data (msg "generate" hi cfg))) = "object"
  /\ Forall (fun st => engine_done st = false) [step1; step2]
  /\ engine_done step3 = true
  /\ Promise_all
       (run engine [Message_event (msg "interrupt" [] cfg);
                    Message_event (msg "load" [] cfg2)] loaded) 0 1
     = Fulfilled.
Proof.
  assert (h1 : tokenizer (pipeline loaded) = Some 0) by (vm_compute; reflexivity).
  assert (h2 : model (pipeline loaded) = Some 1) by (vm_compute; reflexivity).
  assert (h3 : Promise_all loaded 0 1 = Fulfilled) by (vm_compute; reflexivity).
  assert (h4 : type (msg "generate" hi cfg) = JSString "generate") by reflexivity.
  assert (h5 : js_typeof (apply_chat_template engine 0 (data (msg "generate" hi cfg)))
               = "object") by reflexivity.
  assert (h6 : Forall (fun st => engine_done st = false) [step1; step2])
    by (repeat constructor).
  assert (h7 : engine_done step3 = true) by reflexivity.
  exact (conj h1 (conj h2 (conj h3 (conj h4 (conj h5 (conj h6 (conj h7
           (proj1
              (worker_stays_usable
                 engine [Message_event (msg "interrupt" [] cfg);
                         Message_event (msg "load" [] cfg2)]
                 (msg "generate" hi cfg) [step1; step2] step3 loaded 0 1
                 h1 h2 h3 h4 h5 h6 h7))))))))).
Defined.

Lemma concurrent_loads_share_one_acquisition_witness :
  tokenizer (pipeline fresh) = None
  /\ model (pipeline fresh) = None
  /\ loads fresh = []
  /\ tasks fresh = []
  /\ tasks (run engine
              ([Message_event {| type := JSString "load"; data := []; config := cfg |};
                Message_event {| type := JSString "load"; data := []; config := cfg2 |}]
               ++ (progress_of 0 1 <$> [(true, info "progress" "tokenizer.json")])
               ++ [Loader_settles 0 None; Loader_settles 1 None;
                   Warmup_done 0; Warmup_done 1]) fresh)
     = [returned; returned].
Proof.
  assert (h1 : tokenizer (pipeline fresh) = None) by reflexivity.
  assert (h2 : model (pipeline fresh) = None) by reflexivity.
  assert (h3 : loads fresh = []) by reflexivity.
  assert (h4 : tasks fresh = []) by reflexivity.
  exact (conj h1 (conj h2 (conj h3 (conj h4
           (proj2 (proj2
              (concurrent_loads_share_one_acquisition
                 engine cfg cfg2 [] [] [(true, info "progress" "tokenizer.json")]
                 true fresh h1 h2 h3 h4))))))).
Defined.

Lemma update_keeps_roles_witness :
  status_of (update "lo" None 2) = "update"
  /\ role <$> App.messages
                (App.onMessageReceived (update "lo" None 2) (App.onEnter "hi" App.initial))
     = role <$> App.messages (App.onEnter "hi" App.initial).
Proof.
  assert (h1 : status_of (update "lo" None 2) = "update") by reflexivity.
  exact (conj h1
           (proj1 (update_keeps_roles (update "lo" None 2)
                     (App.onEnter "hi" App.initial) h1))).
Defined.

Lemma only_complete_ends_running_witness :
  Forall not_complete [App.Worker_message (error "out of memory"); App.Click_reset]
  /\ App.isRunning (App.onEnter "hi" App.initial) = true
  /\ App.isRunning
       (foldl App.handle (App.onEnter "hi" App.initial)
          [App.Worker_message (error "out of memory"); App.Click_reset])
     = true.
Proof.
  assert (h1 : Forall not_complete
                 [App.Worker_message (error "out of memory"); App.Click_reset])
    by (apply Forall_cons_2; [discriminate | apply Forall_cons_2; [exact I | apply Forall_nil_2]]).
  assert (h2 : App.isRunning (App.onEnter "hi" App.initial) = true) by reflexivity.
  exact (conj h1 (conj h2
           (only_complete_ends_running
              [App.Worker_message (error "out of memory"); App.Click_reset]
              (App.onEnter "hi" App.initial) h1 h2))).
Defined.

Lemma turn_round_trip_witness :
  tokenizer (pipeline loaded) = Some 0
  /\ model (pipeline loaded) = Some 1
  /\ Promise_all loaded 0 1 = Fulfilled
  /\ js_typeof (apply_chat_template engine 0
                  (App.messages App.initial ++ [{| role := "user"; content := "hi" |}]))
     = "object"
  /\ Forall (fun st => engine_done st = false) [step1; step2]
  /\ engine_done step3 = true
  /\ (App.generate_effect (App.onEnter "hi" App.initial)).2
     = Some (generate_message
               (App.messages App.initial ++ [{| role := "user"; content := "hi" |}])
               (Build_Config (App.modelName App.initial) (App.dtype App.initial)
                  (App.device App.initial))).
Proof.
  assert (h1 : tokenizer (pipeline loaded) = Some 0) by (vm_compute; reflexivity).
  assert (h2 : model (pipeline loaded) = Some 1) by (vm_compute; reflexivity).
  assert (h3 : Promise_all loaded 0 1 = Fulfilled) by (vm_compute; reflexivity).
  assert (h4 : js_typeof (apply_chat_template engine 0
                  (App.messages App.initial ++ [{| role := "user"; content := "hi" |}]))
               = "object") by reflexivity.
  assert (h5 : Forall (fun st => engine_done st = false) [step1; step2])
    by (repeat constructor).
  assert (h6 : engine_done step3 = true) by reflexivity.
  exact (conj h1 (conj h2 (conj h3 (conj h4 (conj h5 (conj h6
           (proj1
              (turn_round_trip engine "hi" App.initial [step1; step2] step3 loaded 0 1
                 h1 h2 h3 h4 h5 h6)))))))).
Defined.
